(** * infoblox_client.connector: a shallow embedding of [Connector]

    The module [infoblox_client/connector.py] turns generic object
    operations (get, create, call, update, delete) into HTTP requests
    against the WAPI of a NIOS appliance and maps the replies to values or
    typed exceptions.  This development embeds the module function by
    function, keeps the names of the source, and proves the properties the
    specification states about it.

    Conventions.
    - Python values are the type [pyval]; JSON numbers are integers here.
    - A function that may raise returns [result]; the exception classes
      are the constructors of [exn], with their keyword arguments.
    - The HTTP session is a state: the requests sent so far and the
      records logged so far; the appliance is a function of the requests
      it has already seen and of the current one.
    - Library functions ([jsonutils.loads], [urllib] helpers, [repr]) are
      variables of the section that holds the connector. *)

From Stdlib Require Import String Ascii List ZArith Bool Arith Lia.
From Stdlib Require DecimalString DecimalNat DecimalFacts.
Import ListNotations.
Set Warnings "-register-all".
Open Scope string_scope.
Open Scope Z_scope.

(** ** Python values *)

Inductive pyval : Type :=
| PNone
| PBool (b : bool)
| PInt (z : Z)
| PStr (s : string)
| PList (l : list pyval)
| PDict (d : list (string * pyval)).

(** A [dict] with string keys, in insertion order, without repeated keys. *)
Definition dict := list (string * pyval).

(** Python's truth value of an object ([if x:], [not x], [x and y]). *)
Definition truthy (v : pyval) : bool :=
  match v with
  | PNone => false
  | PBool b => b
  | PInt z => negb (z =? 0)
  | PStr s => negb (s =? "")%string
  | PList l => match l with [] => false | _ => true end
  | PDict d => match d with [] => false | _ => true end
  end.

(** [k in d] *)
Fixpoint dict_mem (k : string) (d : dict) : bool :=
  match d with
  | [] => false
  | (k', _) :: d' => (k =? k')%string || dict_mem k d'
  end.

(** [d.get(k)], [None] when the key is absent *)
Fixpoint dict_get (k : string) (d : dict) : option pyval :=
  match d with
  | [] => None
  | (k', v) :: d' => if (k =? k')%string then Some v else dict_get k d'
  end.

(** [d[k] = v]: an existing key keeps its place, a new one goes last. *)
Fixpoint dict_set (k : string) (v : pyval) (d : dict) : dict :=
  match d with
  | [] => [(k, v)]
  | (k', v') :: d' =>
      if (k =? k')%string then (k, v) :: d' else (k', v') :: dict_set k v d'
  end.

(** ** Strings *)

(** [needle in hay] for two [str] *)
Fixpoint str_in (needle hay : string) : bool :=
  prefix needle hay ||
  match hay with
  | EmptyString => false
  | String _ hay' => str_in needle hay'
  end.

(** [[0-9]], the characters [\d] and [int] accept in ASCII text *)
Definition is_digit (c : ascii) : bool :=
  let n := nat_of_ascii c in (48 <=? n)%nat && (n <=? 57)%nat.

Definition digit_value (c : ascii) : Z := Z.of_nat (nat_of_ascii c) - 48.

Fixpoint all_digits (s : string) : bool :=
  match s with
  | EmptyString => true
  | String c s' => is_digit c && all_digits s'
  end.

Fixpoint int_of_digits_from (acc : Z) (s : string) : Z :=
  match s with
  | EmptyString => acc
  | String c s' => int_of_digits_from (10 * acc + digit_value c) s'
  end.

(** [int(s)] for a string of decimal digits *)
Definition int_of_digits (s : string) : Z := int_of_digits_from 0 s.

(** ** Exceptions *)

(** What a transport failure carries (the text of the [requests] error). *)
Definition transport_info := string.

(** The [reason] of an [InfobloxConnectionError]: the raw content of a
    reply, or the [requests] exception the decorator wrapped. *)
Inductive conn_reason : Type :=
| ReasonContent (content : string)
| ReasonRequestException (e : transport_info).

(** The exception classes the module raises or lets through.  The
    classes of [infoblox_client.exceptions] carry the keyword arguments
    they are built with.  [JSONDecodeError] is the [ValueError] that
    [jsonutils.loads] raises, kept apart from the [ValueError]s the
    module raises itself; [ReqTimeout] and [ReqRequestException] are
    [requests.exceptions.Timeout] and [RequestException].

    The specification names the kinds of error, not the classes: its
    validation error is [ValueError], its configuration error
    [InfobloxConfigException], its authentication error
    [InfobloxBadWAPICredential], its search, create, update, delete and
    function-call errors [InfobloxSearchError],
    [InfobloxCannotCreateObject], [InfobloxCannotUpdateObject],
    [InfobloxCannotDeleteObject] and [InfobloxFuncException], its
    member-already-assigned error [InfobloxMemberAlreadyAssigned], its
    connection and timeout errors [InfobloxConnectionError] and
    [InfobloxTimeoutError]. *)
Inductive exn : Type :=
| ValueError (msg : string)
| JSONDecodeError (doc : string)
| TypeError
| AttributeError
| ReqTimeout (e : transport_info)
| ReqRequestException (e : transport_info)
| InfobloxConfigException (msg : string)
| InfobloxBadWAPICredential (response : string)
| InfobloxTimeoutError (e : transport_info)
| InfobloxConnectionError (reason : conn_reason)
| InfobloxSearchError (response : pyval) (obj_type content : string) (code : Z)
| InfobloxMemberAlreadyAssigned
    (response : pyval) (obj_type content : string) (args : pyval) (code : Z)
| InfobloxCannotCreateObject
    (response : pyval) (obj_type content : string) (args : pyval) (code : Z)
| InfobloxFuncException
    (response : pyval) (ref func_name content : string) (code : Z)
| InfobloxCannotUpdateObject (response : pyval) (ref content : string) (code : Z)
| InfobloxCannotDeleteObject (response : pyval) (ref content : string) (code : Z).

Inductive result (A : Type) : Type :=
| Ok (a : A)
| Raise (e : exn).
Arguments Ok {A} a.
Arguments Raise {A} e.

Definition rbind {A B} (r : result A) (k : A -> result B) : result B :=
  match r with
  | Ok a => k a
  | Raise e => Raise e
  end.

Declare Scope result_scope.
Delimit Scope result_scope with result.
Notation "'let?' x ':=' r 'in' k" := (rbind r (fun x => k))
  (at level 10, x name, r at level 100, k at level 200) : result_scope.
Notation "r ';?' k" := (rbind r (fun _ => k))
  (at level 100, k at level 200, right associativity) : result_scope.

(** ** Version gate *)

Definition CLOUD_WAPI_MAJOR_VERSION : Z := 2.

(** The longest prefix of digits and what follows it: how a greedy [\d+]
    consumes its input. *)
Fixpoint span_digits (s : string) : string * string :=
  match s with
  | EmptyString => (EmptyString, EmptyString)
  | String c s' =>
      if is_digit c
      then let (ds, rest) := span_digits s' in (String c ds, rest)
      else (EmptyString, s)
  end.

(** A match of [(\d+)\.(\d+)] at the start of [s]: groups 1 and 2. *)
Definition match_version_here (s : string) : option (string * string) :=
  let (g1, r1) := span_digits s in
  match g1, r1 with
  | String _ _, String "."%char r2 =>
      let (g2, _) := span_digits r2 in
      match g2 with
      | String _ _ => Some (g1, g2)
      | EmptyString => None
      end
  | _, _ => None
  end.

(** [re.search('(\d+)\.(\d+)', s)]: the match at the leftmost position
    that has one, as its groups 1 and 2; [None] when no position has. *)
Fixpoint re_search_version (s : string) : option (string * string) :=
  match match_version_here s with
  | Some g => Some g
  | None =>
      match s with
      | EmptyString => None
      | String _ s' => re_search_version s'
      end
  end.

(** [isinstance(v, six.string_types)] *)
Definition is_string (v : pyval) : bool :=
  match v with PStr _ => true | _ => false end.

(** [Connector.is_cloud_wapi] *)
Definition is_cloud_wapi (wapi_version : pyval) : result bool :=
  let valid := truthy wapi_version && is_string wapi_version in
  if negb valid then Raise (ValueError "Invalid argument was passed")
  else
    match wapi_version with
    | PStr s =>
        match re_search_version s with
        | Some (major, _) =>
            if CLOUD_WAPI_MAJOR_VERSION <=? int_of_digits major
            then Ok true else Ok false
        | None => Ok false
        end
    | _ => Raise (ValueError "Invalid argument was passed")
    end.

(** ** Object type validation *)

(** [Connector._validate_obj_type_or_die] *)
Definition _validate_obj_type_or_die
    (obj_type : string) (obj_type_expected : bool) : result unit :=
  if negb (truthy (PStr obj_type))
  then Raise (ValueError "NIOS object type cannot be empty.")
  else if obj_type_expected && str_in "/" obj_type
  then Raise (ValueError "NIOS object type cannot contain slash.")
  else Ok tt.

(** ** Requests, replies and the session *)

Inductive http_method : Type := GET | POST | PUT | DELETE.

(** The keyword arguments a request is sent with. *)
Record request_options : Type := {
  verify : pyval;
  timeout : pyval;
  headers : list (string * string);
  data : option string
}.

Record request : Type := {
  method : http_method;
  url : string;
  opts : request_options
}.

(** What the module reads of a [requests.Response]. *)
Record response : Type := {
  status_code : Z;
  content : string
}.

(** What sending a request comes to: a reply, or an exception of
    [requests]: a [Timeout], or another [RequestException]. *)
Inductive outcome : Type :=
| Responded (r : response)
| TimedOut (e : transport_info)
| Failed (e : transport_info).

Inductive log_level : Type := INFO | DEBUG.

Record log_record : Type := {
  level : log_level;
  log_url : string;
  log_opts : request_options
}.

(** The observable state of a connector's session: the requests sent, in
    order, and the records logged, in order. *)
Record session_state : Type := {
  sent : list request;
  logged : list log_record
}.

(** The appliance: its answer to a request, given the requests it has
    already received on this session. *)
Definition appliance := list request -> request -> outcome.

(** [requests.codes] *)
Definition codes_ok : Z := 200.
Definition codes_CREATED : Z := 201.
Definition codes_UNAUTHORIZED : Z := 401.

(** Computations on the session that may raise. *)
Definition M (A : Type) : Type := session_state -> result A * session_state.

Definition ret {A} (a : A) : M A := fun st => (Ok a, st).
Definition raise {A} (e : exn) : M A := fun st => (Raise e, st).
Definition lift {A} (r : result A) : M A := fun st => (r, st).
Definition bind {A B} (m : M A) (k : A -> M B) : M B :=
  fun st =>
    match m st with
    | (Ok a, st') => k a st'
    | (Raise e, st') => (Raise e, st')
    end.

Declare Scope session_scope.
Delimit Scope session_scope with session.
Notation "x <- m ;; k" := (bind m (fun x => k))
  (at level 100, m at next level, k at level 200,
   right associativity) : session_scope.
Notation "m ;; k" := (bind m (fun _ => k))
  (at level 100, k at level 200, right associativity) : session_scope.

(** [reraise_neutron_exception]: the decorator of every public
    operation.  [Timeout] is caught first, then [RequestException]. *)
Definition reraise_neutron_exception {A} (func : M A) : M A :=
  fun st =>
    match func st with
    | (Raise (ReqTimeout e), st') => (Raise (InfobloxTimeoutError e), st')
    | (Raise (ReqRequestException e), st') =>
        (Raise (InfobloxConnectionError (ReasonRequestException e)), st')
    | other => other
    end.

(** ** Connector *)

(** An extensible attribute's descriptor, a dict that holds a string
    under ['value']: [value['value']] is what the query string shows of
    it. *)
Record extattr : Type := { value : string }.

(** The attributes of a constructed [Connector]. *)
Record Connector : Type := {
  host : pyval;
  wapi_version : pyval;
  username : pyval;
  password : pyval;
  ssl_verify : pyval;
  http_request_timeout : pyval;
  http_pool_connections : pyval;
  http_pool_maxsize : pyval;
  silent_ssl_warnings : pyval;
  log_api_calls_as_info : pyval;
  wapi_url : string;
  cloud_api_enabled : bool
}.

Definition DEFAULT_HEADER : list (string * string) :=
  [("Content-type", "application/json")].

Definition DEFAULT_OPTIONS : dict :=
  [("ssl_verify", PBool false);
   ("silent_ssl_warnings", PBool false);
   ("http_request_timeout", PInt 10);
   ("http_pool_connections", PInt 10);
   ("http_pool_maxsize", PInt 10);
   ("wapi_version", PStr "1.4");
   ("log_api_calls_as_info", PBool false)].

(** The tuple [attributes] of [_parse_options], in its order. *)
Definition attributes : list string :=
  ["host"; "wapi_version"; "username"; "password";
   "ssl_verify"; "http_request_timeout";
   "http_pool_connections"; "http_pool_maxsize";
   "silent_ssl_warnings"; "log_api_calls_as_info"].

(** Where the options come from: a [dict], or any other object, given
    by the attributes it has. *)
Inductive options_source : Type :=
| OptionsDict (d : dict)
| OptionsObject (attrs : dict).

(** The first two branches of the loop of [_parse_options]:
    [options[attr]] when [options] is a dict that has the key, else
    [getattr(options, attr)] when the object has the attribute.  A dict
    has no attribute named as an option. *)
Definition provided (options : options_source) (attr : string) : option pyval :=
  match options with
  | OptionsDict d => dict_get attr d
  | OptionsObject attrs => dict_get attr attrs
  end.

(** One round of the first loop of [_parse_options]: the value [setattr]
    stores for [attr]. *)
Definition resolve_option (options : options_source) (attr : string)
  : result pyval :=
  match provided options attr with
  | Some v => Ok v
  | None =>
      match dict_get attr DEFAULT_OPTIONS with
      | Some v => Ok v
      | None =>
          Raise (InfobloxConfigException
                   ("WAPI config error. Option " ++ attr ++ " is not defined"))
      end
  end.

(** The first loop: [self] as the attributes set so far. *)
Fixpoint copy_options (options : options_source) (attrs : list string)
    (self : dict) : result dict :=
  match attrs with
  | [] => Ok self
  | attr :: rest =>
      (let? v := resolve_option options attr in
       copy_options options rest (dict_set attr v self))%result
  end.

(** [getattr(self, attr)] *)
Definition getattr (self : dict) (attr : string) : result pyval :=
  match dict_get attr self with
  | Some v => Ok v
  | None => Raise AttributeError
  end.

(** The second loop of [_parse_options]. *)
Fixpoint check_not_blank (self : dict) (attrs : list string) : result unit :=
  match attrs with
  | [] => Ok tt
  | attr :: rest =>
      (let? v := getattr self attr in
       if negb (truthy v)
       then Raise (InfobloxConfigException
                     ("WAPI config error. Option " ++ attr ++ " can not be blank"))
       else check_not_blank self rest)%result
  end.

(** [Connector._build_query_params] *)
Definition _build_query_params
    (payload : option dict) (return_fields : option (list string)) : dict :=
  let query_params :=
    match payload with
    | Some (p :: ps) => p :: ps
    | _ => []
    end in
  match return_fields with
  | Some (f :: fs) =>
      dict_set "_return_fields" (PStr (String.concat "," (f :: fs))) query_params
  | _ => query_params
  end.

(** [Connector._validate_authorized] *)
Definition _validate_authorized (r : response) : result unit :=
  if status_code r =? codes_UNAUTHORIZED
  then Raise (InfobloxBadWAPICredential "")
  else Ok tt.

(** [relative_path[0] == '/'] for a non-empty path *)
Definition starts_with_slash (s : string) : bool :=
  match s with
  | String "/"%char _ => true
  | _ => false
  end.

(** [response.get('text')]: only a dict has [get]. *)
Definition get_text (response : pyval) : result pyval :=
  match response with
  | PDict d =>
      Ok (match dict_get "text" d with Some v => v | None => PNone end)
  | _ => Raise AttributeError
  end.

(** [needle in container] for a [str] needle: substring of a string,
    element of a list, key of a dict; other objects are not iterable. *)
Definition str_in_value (needle : string) (container : pyval) : result bool :=
  match container with
  | PStr s => Ok (str_in needle s)
  | PList l =>
      Ok (existsb (fun v => match v with
                            | PStr s => (s =? needle)%string
                            | _ => false
                            end) l)
  | PDict d => Ok (dict_mem needle d)
  | _ => Raise TypeError
  end.

(** What [_configure_session] sets up: the pooled adapter mounted for
    both schemes, the credentials, the TLS policy, and whether the
    warnings of urllib3 were silenced. *)
Record Session : Type := {
  pool_connections : pyval;
  pool_maxsize : pyval;
  mounted : list string;
  auth : pyval * pyval;
  session_verify : pyval;
  warnings_disabled : bool
}.

(** [Connector._configure_session] *)
Definition _configure_session (self : Connector) : Session :=
  {| pool_connections := http_pool_connections self;
     pool_maxsize := http_pool_maxsize self;
     mounted := ["http://"; "https://"];
     auth := (username self, password self);
     session_verify := ssl_verify self;
     warnings_disabled := truthy (silent_ssl_warnings self) |}.

(** [Connector._log_request] *)
Definition _log_request (self : Connector) (url : string)
    (opts : request_options) : M unit :=
  fun st =>
    let lvl := if truthy (log_api_calls_as_info self) then INFO else DEBUG in
    (Ok tt,
     {| sent := sent st;
        logged := logged st ++ [{| level := lvl; log_url := url;
                                   log_opts := opts |}] |}).

(** ** Scenarios *)

(** The library functions and appliances of the concrete runs below.
    Each library function is given on the inputs these runs use, where
    it agrees with the library: nothing there needs escaping, the paths
    are plain names under a base that ends in a slash, and the payloads
    are flat dicts of strings. *)

(** The double quote, as a string. *)
Definition dq : string := String "034"%char EmptyString.

(** The error body [{"Error": "no text here"}]. *)
Definition error_body_without_text : string :=
  "{" ++ dq ++ "Error" ++ dq ++ ": " ++ dq ++ "no text here" ++ dq ++ "}".

(** The error body of a member that another network view holds. *)
Definition error_body_assigned : string :=
  "{" ++ dq ++ "text" ++ dq ++ ": " ++ dq
  ++ "member is assigned to another network view" ++ dq ++ "}".

Definition scenario_loads (s : string) : option pyval :=
  if (s =? "[]")%string then Some (PList [])
  else if (s =? "[1]")%string then Some (PList [PInt 1])
  else if (s =? "{}")%string then Some (PDict [])
  else if (s =? "null")%string then Some PNone
  else if (s =? error_body_without_text)%string
  then Some (PDict [("Error", PStr "no text here")])
  else if (s =? error_body_assigned)%string
  then Some (PDict [("text",
                     PStr "member is assigned to another network view")])
  else None.

Definition scenario_dumps (v : pyval) : string :=
  match v with
  | PDict d =>
      "{" ++ String.concat ", "
               (map (fun kv =>
                       dq ++ fst kv ++ dq ++ ": "
                       ++ match snd kv with
                          | PStr s => dq ++ s ++ dq
                          | _ => "null"
                          end) d)
      ++ "}"
  | _ => "null"
  end.

Definition scenario_urlencode (d : dict) : string :=
  String.concat "&"
    (map (fun kv =>
            fst kv ++ "="
            ++ match snd kv with PStr s => s | _ => "None" end) d).

Definition scenario_quote (s : string) : string := s.

Definition scenario_urljoin (base rel : string) : string := base ++ rel.

Definition scenario_repr (v : pyval) : string :=
  match v with
  | PBool true => "True"
  | PBool false => "False"
  | _ => "None"
  end.

(** An appliance that answers every request the same way. *)
Definition constant_server (code : Z) (body : string) : appliance :=
  fun _ _ => Responded {| status_code := code; content := body |}.

(** An appliance that answers its first request with [first] and every
    later one with [later]. *)
Definition two_step_server (first later : response) : appliance :=
  fun earlier _ =>
    match earlier with
    | [] => Responded first
    | _ => Responded later
    end.

(** The options of a cloud-capable grid master, the other options left
    to their defaults. *)
Definition cloud_options : options_source :=
  OptionsDict [("host", PStr "nios.example.com");
               ("username", PStr "a");
               ("password", PStr "b");
               ("wapi_version", PStr "2.5")].

Definition cloud_connector : Connector :=
  {| host := PStr "nios.example.com";
     wapi_version := PStr "2.5";
     username := PStr "a";
     password := PStr "b";
     ssl_verify := PBool false;
     http_request_timeout := PInt 10;
     http_pool_connections := PInt 10;
     http_pool_maxsize := PInt 10;
     silent_ssl_warnings := PBool false;
     log_api_calls_as_info := PBool false;
     wapi_url := "https://nios.example.com/wapi/v2.5/";
     cloud_api_enabled := true |}.

(** A fresh session. *)
Definition fresh : session_state := {| sent := []; logged := [] |}.

(** The request options of [cloud_connector] without a body. *)
Definition plain_opts : request_options :=
  {| verify := PBool false; timeout := PInt 10;
     headers := DEFAULT_HEADER; data := None |}.

Definition network_request : request :=
  {| method := GET;
     url := "https://nios.example.com/wapi/v2.5/network";
     opts := plain_opts |}.

Definition network_request_proxied : request :=
  {| method := GET;
     url := "https://nios.example.com/wapi/v2.5/network?_proxy_search=GM";
     opts := plain_opts |}.

Section Connector.

Set Default Proof Using "Type".

(** *** What the module takes from its libraries and from the network *)

(** [jsonutils.loads]; [None] stands for the [ValueError] it raises on
    text that is not JSON. *)
Variable loads : string -> option pyval.
(** [jsonutils.dumps] *)
Variable dumps : pyval -> string.
(** [urlencode], [quote] and [urljoin] of [urllib] / [urlparse] *)
Variable urlencode : dict -> string.
Variable quote : string -> string.
Variable urljoin : string -> string -> string.
(** [repr] of an object that is not a string *)
Variable py_repr : pyval -> string.
(** The appliance the session talks to. *)
Variable server : appliance.

(** [str(v)], what [%s] formats: a string is itself, any other value
    of [pyval] is its [repr]. *)
Definition py_str (v : pyval) : string :=
  match v with
  | PStr s => s
  | _ => py_repr v
  end.

(** [jsonutils.loads(content)] where the module does not catch its
    [ValueError] *)
Definition jsonutils_loads (content : string) : result pyval :=
  match loads content with
  | Some v => Ok v
  | None => Raise (JSONDecodeError content)
  end.

(** Modelled from the spec: [utils.safe_json_load], of the module
    [infoblox_client/utils.py]: the safely-parsed body, or none when the
    content is not JSON. *)
Definition safe_json_load (content : string) : pyval :=
  match loads content with
  | Some v => v
  | None => PNone
  end.

(** *** Configuration *)

(** [Connector._parse_options]: the two loops, then [wapi_url] and
    [cloud_api_enabled]. *)
Definition _parse_options (options : options_source) : result Connector :=
  (let? self := copy_options options attributes [] in
   check_not_blank self ["host"; "username"; "password"] ;?
   let? host := getattr self "host" in
   let? wapi_version := getattr self "wapi_version" in
   let? username := getattr self "username" in
   let? password := getattr self "password" in
   let? ssl_verify := getattr self "ssl_verify" in
   let? http_request_timeout := getattr self "http_request_timeout" in
   let? http_pool_connections := getattr self "http_pool_connections" in
   let? http_pool_maxsize := getattr self "http_pool_maxsize" in
   let? silent_ssl_warnings := getattr self "silent_ssl_warnings" in
   let? log_api_calls_as_info := getattr self "log_api_calls_as_info" in
   let wapi_url :=
     "https://" ++ py_str host ++ "/wapi/v" ++ py_str wapi_version ++ "/" in
   let? cloud_api_enabled := is_cloud_wapi wapi_version in
   Ok {| host := host;
         wapi_version := wapi_version;
         username := username;
         password := password;
         ssl_verify := ssl_verify;
         http_request_timeout := http_request_timeout;
         http_pool_connections := http_pool_connections;
         http_pool_maxsize := http_pool_maxsize;
         silent_ssl_warnings := silent_ssl_warnings;
         log_api_calls_as_info := log_api_calls_as_info;
         wapi_url := wapi_url;
         cloud_api_enabled := cloud_api_enabled |})%result.

(** [Connector.__init__] *)
Definition __init__ (options : options_source)
  : result (Connector * Session) :=
  (let? self := _parse_options options in
   Ok (self, _configure_session self))%result.

(** *** URLs *)

(** One entry of the extensible-attribute segment. *)
Definition attr_query (kv : string * extattr) : string :=
  "*" ++ fst kv ++ "=" ++ value (snd kv).

(** [Connector._construct_url].  The dict [query_params] is changed in
    place when [force_proxy] is set, before the path is looked at: the
    first component is the dict as the call leaves it. *)
Definition _construct_url (self : Connector) (relative_path : string)
    (query_params : option dict) (extattrs : option (list (string * extattr)))
    (force_proxy : bool) : dict * result string :=
  let query_params :=
    match query_params with None => [] | Some q => q end in
  let extattrs :=
    match extattrs with None => [] | Some e => e end in
  let query_params :=
    if force_proxy
    then dict_set "_proxy_search" (PStr "GM") query_params
    else query_params in
  (query_params,
   if negb (truthy (PStr relative_path)) || starts_with_slash relative_path
   then Raise (ValueError "Path in request must be relative.")
   else
     let query := "" in
     let query :=
       if truthy (PDict query_params)
          || match extattrs with [] => false | _ => true end
       then "?" else query in
     let query :=
       match extattrs with
       | [] => query
       | _ => query ++ String.concat "&" (map attr_query extattrs)
       end in
     let query :=
       if truthy (PDict query_params)
       then (if (1 <? String.length query)%nat
             then query ++ "&" else query) ++ urlencode query_params
       else query in
     let base_url := urljoin (wapi_url self) (quote relative_path) in
     Ok (base_url ++ query)).

(** *** Requests *)

(** [Connector._get_request_options] *)
Definition _get_request_options (self : Connector) (data : option pyval)
  : request_options :=
  {| verify := ssl_verify self;
     timeout := http_request_timeout self;
     headers := DEFAULT_HEADER;
     data := match data with
             | Some d => if truthy d then Some (dumps d) else None
             | None => None
             end |}.

(** [Connector._parse_reply] *)
Definition _parse_reply (r : response) : result pyval :=
  match loads (content r) with
  | Some v => Ok v
  | None => Raise (InfobloxConnectionError (ReasonContent (content r)))
  end.

(** [self.session.get], [.post], [.put], [.delete]: the request joins
    the requests sent, and the appliance answers it. *)
Definition session_request (m : http_method) (url : string)
    (opts : request_options) : M response :=
  fun st =>
    let req := {| method := m; url := url; opts := opts |} in
    let st' := {| sent := sent st ++ [req]; logged := logged st |} in
    match server (sent st) req with
    | Responded r => (Ok r, st')
    | TimedOut e => (Raise (ReqTimeout e), st')
    | Failed e => (Raise (ReqRequestException e), st')
    end.

(** *** Operations *)

(** [Connector._get_object] *)
Definition _get_object (self : Connector) (obj_type url : string) : M pyval :=
  (let opts := _get_request_options self None in
   _log_request self url opts ;;
   r <- session_request GET url opts ;;
   lift (_validate_authorized r) ;;
   if negb (status_code r =? codes_ok)
   then
     response <- lift (jsonutils_loads (content r)) ;;
     raise (InfobloxSearchError response obj_type (content r) (status_code r))
   else lift (_parse_reply r))%session.

(** [Connector.get_object] *)
Definition get_object (self : Connector) (obj_type : string)
    (payload : option dict) (return_fields : option (list string))
    (extattrs : option (list (string * extattr))) (force_proxy : bool)
  : M pyval :=
  reraise_neutron_exception
    (lift (_validate_obj_type_or_die obj_type false) ;;
     let query_params := _build_query_params payload return_fields in
     let proxy_flag := cloud_api_enabled self && force_proxy in
     let (query_params, url) :=
       _construct_url self obj_type (Some query_params) extattrs proxy_flag in
     url <- lift url ;;
     ib_object <- _get_object self obj_type url ;;
     if truthy ib_object then ret ib_object
     else if cloud_api_enabled self && negb force_proxy
     then
       let (_, url) :=
         _construct_url self obj_type (Some query_params) extattrs true in
       url <- lift url ;;
       ib_object <- _get_object self obj_type url ;;
       if truthy ib_object then ret ib_object else ret PNone
     else ret PNone)%session.

(** [Connector.create_object] *)
Definition create_object (self : Connector) (obj_type : string)
    (payload : pyval) (return_fields : option (list string)) : M pyval :=
  reraise_neutron_exception
    (lift (_validate_obj_type_or_die obj_type true) ;;
     let query_params := _build_query_params None return_fields in
     url <- lift (snd (_construct_url self obj_type (Some query_params)
                         None false)) ;;
     let opts := _get_request_options self (Some payload) in
     _log_request self url opts ;;
     r <- session_request POST url opts ;;
     lift (_validate_authorized r) ;;
     if negb (status_code r =? codes_CREATED)
     then
       let response := safe_json_load (content r) in
       let already_assigned := "is assigned to another network view" in
       is_assigned <-
         (if truthy response
          then text <- lift (get_text response) ;;
               lift (str_in_value already_assigned text)
          else ret false) ;;
       if is_assigned
       then raise (InfobloxMemberAlreadyAssigned
                     response obj_type (content r) payload (status_code r))
       else raise (InfobloxCannotCreateObject
                     response obj_type (content r) payload (status_code r))
     else lift (_parse_reply r))%session.

(** [Connector.call_func] *)
Definition call_func (self : Connector) (func_name ref : string)
    (payload : pyval) (return_fields : option (list string)) : M pyval :=
  reraise_neutron_exception
    (let query_params := _build_query_params None return_fields in
     let query_params := dict_set "_function" (PStr func_name) query_params in
     url <- lift (snd (_construct_url self ref (Some query_params)
                         None false)) ;;
     let opts := _get_request_options self (Some payload) in
     _log_request self url opts ;;
     r <- session_request POST url opts ;;
     lift (_validate_authorized r) ;;
     if negb ((status_code r =? codes_CREATED) || (status_code r =? codes_ok))
     then
       response <- lift (jsonutils_loads (content r)) ;;
       raise (InfobloxFuncException
                response ref func_name (content r) (status_code r))
     else lift (_parse_reply r))%session.

(** [Connector.update_object] *)
Definition update_object (self : Connector) (ref : string)
    (payload : pyval) (return_fields : option (list string)) : M pyval :=
  reraise_neutron_exception
    (let query_params := _build_query_params None return_fields in
     let opts := _get_request_options self (Some payload) in
     url <- lift (snd (_construct_url self ref (Some query_params)
                         None false)) ;;
     _log_request self url opts ;;
     r <- session_request PUT url opts ;;
     lift (_validate_authorized r) ;;
     if negb (status_code r =? codes_ok)
     then
       response <- lift (jsonutils_loads (content r)) ;;
       raise (InfobloxCannotUpdateObject
                response ref (content r) (status_code r))
     else lift (_parse_reply r))%session.

(** [Connector.delete_object] *)
Definition delete_object (self : Connector) (ref : string) : M pyval :=
  reraise_neutron_exception
    (let opts := _get_request_options self None in
     url <- lift (snd (_construct_url self ref None None false)) ;;
     _log_request self url opts ;;
     r <- session_request DELETE url opts ;;
     lift (_validate_authorized r) ;;
     if negb (status_code r =? codes_ok)
     then
       response <- lift (jsonutils_loads (content r)) ;;
       raise (InfobloxCannotDeleteObject
                response ref (content r) (status_code r))
     else lift (_parse_reply r))%session.


(** *** The five operations as one type *)

Inductive operation : Type :=
| OpGet (obj_type : string) (payload : option dict)
    (return_fields : option (list string))
    (extattrs : option (list (string * extattr))) (force_proxy : bool)
| OpCreate (obj_type : string) (payload : pyval)
    (return_fields : option (list string))
| OpCall (func_name ref : string) (payload : pyval)
    (return_fields : option (list string))
| OpUpdate (ref : string) (payload : pyval)
    (return_fields : option (list string))
| OpDelete (ref : string).

Definition run (self : Connector) (op : operation) : M pyval :=
  match op with
  | OpGet obj_type payload return_fields extattrs force_proxy =>
      get_object self obj_type payload return_fields extattrs force_proxy
  | OpCreate obj_type payload return_fields =>
      create_object self obj_type payload return_fields
  | OpCall func_name ref payload return_fields =>
      call_func self func_name ref payload return_fields
  | OpUpdate ref payload return_fields =>
      update_object self ref payload return_fields
  | OpDelete ref => delete_object self ref
  end.

(** ** The words of the specification *)

(** The success status of each operation, as the table of operations
    gives it. *)
Definition success_status (op : operation) (code : Z) : bool :=
  match op with
  | OpGet _ _ _ _ _ => code =? 200
  | OpCreate _ _ _ => code =? 201
  | OpCall _ _ _ _ => (code =? 201) || (code =? 200)
  | OpUpdate _ _ _ => code =? 200
  | OpDelete _ => code =? 200
  end.

(** The typed error of an appliance rejection, as the table of
    operations gives it: the parsed body, what identifies the operation,
    the raw content and the status. *)
Definition rejection (op : operation) (body : pyval) (raw : string) (code : Z)
  : exn :=
  match op with
  | OpGet obj_type _ _ _ _ => InfobloxSearchError body obj_type raw code
  | OpCreate obj_type payload _ =>
      InfobloxCannotCreateObject body obj_type raw payload code
  | OpCall func_name ref _ _ =>
      InfobloxFuncException body ref func_name raw code
  | OpUpdate ref _ _ => InfobloxCannotUpdateObject body ref raw code
  | OpDelete ref => InfobloxCannotDeleteObject body ref raw code
  end.

(** The request [req] is the last one the run from [st] to [st'] sent,
    and the appliance answered it with [r]. *)
Definition last_reply (st st' : session_state) (req : request) (r : response)
  : Prop :=
  exists earlier,
    sent st' = (earlier ++ [req])%list /\
    (List.length (sent st) <= List.length earlier)%nat /\
    server earlier req = Responded r.

(** [s] holds a [major.minor] pattern right after [pre]: one or more
    digits, a dot, one or more digits. *)
Definition version_at (s pre major minor rest : string) : Prop :=
  s = pre ++ major ++ "." ++ minor ++ rest /\
  major <> "" /\ minor <> "" /\
  all_digits major = true /\ all_digits minor = true.

(** The first such pattern of [s]: none starts further left. *)
Definition first_version (s pre major minor rest : string) : Prop :=
  version_at s pre major minor rest /\
  forall pre' major' minor' rest',
    version_at s pre' major' minor' rest' ->
    (String.length pre <= String.length pre')%nat.

(** [s] contains the character [/]. *)
Definition contains_slash (s : string) : Prop :=
  exists before after, s = before ++ "/" ++ after.

(** The segment of the extensible attributes: each entry as
    [*key=value], joined by [&]. *)
Definition extattrs_segment (extattrs : list (string * extattr)) : string :=
  String.concat "&"
    (map (fun kv => "*" ++ fst kv ++ "=" ++ value (snd kv)) extattrs).

(** The query string in the words of the URL builder's contract: the
    segment of the extensible attributes first, after a leading [?], the
    encoded ordinary parameters after it, an [&] between the two when
    both are there. *)
Definition query_string (query_params : dict)
    (extattrs : list (string * extattr)) : string :=
  match extattrs, query_params with
  | [], [] => ""
  | _ :: _, [] => "?" ++ extattrs_segment extattrs
  | [], _ :: _ => "?" ++ urlencode query_params
  | _ :: _, _ :: _ =>
      "?" ++ extattrs_segment extattrs ++ "&" ++ urlencode query_params
  end.

(** The attribute of a constructed connector that an option names. *)
Definition connector_attr (self : Connector) (attr : string) : option pyval :=
  if (attr =? "host")%string then Some (host self)
  else if (attr =? "wapi_version")%string then Some (wapi_version self)
  else if (attr =? "username")%string then Some (username self)
  else if (attr =? "password")%string then Some (password self)
  else if (attr =? "ssl_verify")%string then Some (ssl_verify self)
  else if (attr =? "http_request_timeout")%string
  then Some (http_request_timeout self)
  else if (attr =? "http_pool_connections")%string
  then Some (http_pool_connections self)
  else if (attr =? "http_pool_maxsize")%string
  then Some (http_pool_maxsize self)
  else if (attr =? "silent_ssl_warnings")%string
  then Some (silent_ssl_warnings self)
  else if (attr =? "log_api_calls_as_info")%string
  then Some (log_api_calls_as_info self)
  else None.

(** An option the source does not give and that has no default. *)
Definition undefined_option (options : options_source) (attr : string) : bool :=
  match provided options attr, dict_get attr DEFAULT_OPTIONS with
  | None, None => true
  | _, _ => false
  end.

(** The value an option resolves to: the one the source provides, else
    its fixed default. *)
Definition resolved (options : options_source) (attr : string) : option pyval :=
  match provided options attr with
  | Some v => Some v
  | None => dict_get attr DEFAULT_OPTIONS
  end.

(** A required option that resolves to an empty value. *)
Definition blank_option (options : options_source) (attr : string) : bool :=
  match resolved options attr with
  | Some v => negb (truthy v)
  | None => false
  end.

Definition not_defined_msg (attr : string) : string :=
  "WAPI config error. Option " ++ attr ++ " is not defined".

Definition blank_msg (attr : string) : string :=
  "WAPI config error. Option " ++ attr ++ " can not be blank".

(** An optional dict or list argument: [None] stands for the empty one. *)
Definition or_empty {A : Type} (o : option (list A)) : list A :=
  match o with
  | Some l => l
  | None => []
  end.

(** The ordinary parameters that get encoded: with [force_proxy], the
    pair [_proxy_search=GM] is put into them first. *)
Definition proxied_params (force_proxy : bool) (query_params : dict) : dict :=
  if force_proxy
  then dict_set "_proxy_search" (PStr "GM") query_params
  else query_params.

(** The session after [req] was logged and sent. *)
Definition after_request (self : Connector) (st : session_state)
    (req : request) : session_state :=
  {| sent := sent st ++ [req];
     logged := logged st
               ++ [{| level := if truthy (log_api_calls_as_info self)
                               then INFO else DEBUG;
                      log_url := url req;
                      log_opts := opts req |}] |}.

(** What a failed create raises: the exception chosen from the text of
    the safely-parsed body, or the exception the look at that text
    itself runs into. *)
Definition create_rejection (obj_type : string) (payload : pyval)
    (r : response) : exn :=
  let response := safe_json_load (content r) in
  if truthy response
  then
    match get_text response with
    | Raise e => e
    | Ok text =>
        match str_in_value "is assigned to another network view" text with
        | Raise e => e
        | Ok true =>
            InfobloxMemberAlreadyAssigned
              response obj_type (content r) payload (status_code r)
        | Ok false =>
            InfobloxCannotCreateObject
              response obj_type (content r) payload (status_code r)
        end
    end
  else InfobloxCannotCreateObject
         response obj_type (content r) payload (status_code r).

(** The request executor's reading of one outcome, for each operation:
    the transport's exceptions remapped, 401 first, then the parsed reply
    on a success status, else the operation's rejection. *)
Definition reply_result (op : operation) (o : outcome) : result pyval :=
  match o with
  | TimedOut e => Raise (InfobloxTimeoutError e)
  | Failed e => Raise (InfobloxConnectionError (ReasonRequestException e))
  | Responded r =>
      if status_code r =? 401 then Raise (InfobloxBadWAPICredential "")
      else if success_status op (status_code r) then _parse_reply r
      else
        match op with
        | OpCreate obj_type payload _ =>
            Raise (create_rejection obj_type payload r)
        | _ =>
            match loads (content r) with
            | Some body =>
                Raise (rejection op body (content r) (status_code r))
            | None => Raise (JSONDecodeError (content r))
            end
        end
  end.

(** What an operation does before its first request: the validation of
    its object type and the URL it builds. *)
Definition prepare (self : Connector) (op : operation) : result string :=
  match op with
  | OpGet obj_type payload return_fields extattrs force_proxy =>
      (_validate_obj_type_or_die obj_type false ;?
       snd (_construct_url self obj_type
              (Some (_build_query_params payload return_fields)) extattrs
              (cloud_api_enabled self && force_proxy)))%result
  | OpCreate obj_type _ return_fields =>
      (_validate_obj_type_or_die obj_type true ;?
       snd (_construct_url self obj_type
              (Some (_build_query_params None return_fields)) None false))%result
  | OpCall func_name ref _ return_fields =>
      snd (_construct_url self ref
             (Some (dict_set "_function" (PStr func_name)
                      (_build_query_params None return_fields))) None false)
  | OpUpdate ref _ return_fields =>
      snd (_construct_url self ref
             (Some (_build_query_params None return_fields)) None false)
  | OpDelete ref => snd (_construct_url self ref None None false)
  end.

(** The request an operation sends to [url]. *)
Definition request_of (self : Connector) (op : operation) (url : string)
  : request :=
  match op with
  | OpGet _ _ _ _ _ =>
      {| method := GET; url := url; opts := _get_request_options self None |}
  | OpCreate _ payload _ =>
      {| method := POST; url := url;
         opts := _get_request_options self (Some payload) |}
  | OpCall _ _ payload _ =>
      {| method := POST; url := url;
         opts := _get_request_options self (Some payload) |}
  | OpUpdate _ payload _ =>
      {| method := PUT; url := url;
         opts := _get_request_options self (Some payload) |}
  | OpDelete _ =>
      {| method := DELETE; url := url;
         opts := _get_request_options self None |}
  end.

(** The URL of the second request of a get. *)
Definition proxied_url (self : Connector) (obj_type : string)
    (payload : option dict) (return_fields : option (list string))
    (extattrs : option (list (string * extattr))) : result string :=
  snd (_construct_url self obj_type
         (Some (_build_query_params payload return_fields)) extattrs true).

(** [get_object] returns a result that is not empty, and [None] for any
    other. *)
Definition or_none (r : result pyval) : result pyval :=
  match r with
  | Ok v => if truthy v then Ok v else Ok PNone
  | Raise e => Raise e
  end.

(** What a run returns of the executor's reading of its last reply: a
    get turns an empty result into [None]. *)
Definition finish (op : operation) (r : result pyval) : result pyval :=
  match op with
  | OpGet _ _ _ _ _ => or_none r
  | _ => r
  end.

(** The retry of get in the words of the specification: on a
    cloud-capable connector and without [force_proxy], when the first
    reply is an empty result, what the second reply parses to is returned
    as it is. *)
Definition second_result_returned_as_is : Prop :=
  forall (self : Connector) (obj_type : string) (payload : option dict)
         (return_fields : option (list string))
         (extattrs : option (list (string * extattr)))
         (st st' : session_state) (res : result pyval)
         (url1 url2 : string) (r1 r2 : response) (v1 v2 : pyval),
    cloud_api_enabled self = true ->
    get_object self obj_type payload return_fields extattrs false st
    = (res, st') ->
    prepare self (OpGet obj_type payload return_fields extattrs false)
    = Ok url1 ->
    server (sent st)
      {| method := GET; url := url1; opts := _get_request_options self None |}
    = Responded r1 ->
    status_code r1 = 200 ->
    loads (content r1) = Some v1 ->
    truthy v1 = false ->
    snd (_construct_url self obj_type
           (Some (_build_query_params payload return_fields)) extattrs true)
    = Ok url2 ->
    server (sent st
            ++ [{| method := GET; url := url1;
                   opts := _get_request_options self None |}])%list
      {| method := GET; url := url2; opts := _get_request_options self None |}
    = Responded r2 ->
    status_code r2 = 200 ->
    loads (content r2) = Some v2 ->
    res = Ok v2.

(** ** What the further properties speak of *)

(** The request [req] is the last one the run from [st] to [st'] sent,
    and sending it came to [o]: a reply, or a failure of the transport. *)
Definition last_outcome (st st' : session_state) (req : request)
    (o : outcome) : Prop :=
  exists earlier,
    sent st' = (earlier ++ [req])%list /\
    (List.length (sent st) <= List.length earlier)%nat /\
    server earlier req = o.

(** The object type or the reference an operation is called on: the
    relative path of its URL. *)
Definition op_path (op : operation) : string :=
  match op with
  | OpGet obj_type _ _ _ _ => obj_type
  | OpCreate obj_type _ _ => obj_type
  | OpCall _ ref _ _ => ref
  | OpUpdate ref _ _ => ref
  | OpDelete ref => ref
  end.

(** The HTTP method of an operation. *)
Definition op_method (op : operation) : http_method :=
  match op with
  | OpGet _ _ _ _ _ => GET
  | OpCreate _ _ _ => POST
  | OpCall _ _ _ _ => POST
  | OpUpdate _ _ _ => PUT
  | OpDelete _ => DELETE
  end.

(** The body of an operation's requests: the serialized payload of a
    create, call or update when the payload is not empty. *)
Definition op_body (op : operation) : option string :=
  match op with
  | OpGet _ _ _ _ _ => None
  | OpCreate _ payload _ =>
      if truthy payload then Some (dumps payload) else None
  | OpCall _ _ payload _ =>
      if truthy payload then Some (dumps payload) else None
  | OpUpdate _ payload _ =>
      if truthy payload then Some (dumps payload) else None
  | OpDelete _ => None
  end.

(** The record logged for a request. *)
Definition log_of (self : Connector) (req : request) : log_record :=
  {| level := if truthy (log_api_calls_as_info self) then INFO else DEBUG;
     log_url := url req;
     log_opts := opts req |}.

(** A path an operation accepts: not empty, not starting with a slash,
    and for a create, which takes a type and not a reference, without
    any slash. *)
Definition valid_target (op : operation) : Prop :=
  op_path op <> "" /\
  (forall rest, op_path op <> String "/" rest) /\
  match op with
  | OpCreate obj_type _ _ => ~ contains_slash obj_type
  | _ => True
  end.

(** The ordinary parameters of an operation's first request. *)
Definition op_params (self : Connector) (op : operation) : dict :=
  match op with
  | OpGet _ payload return_fields _ force_proxy =>
      proxied_params (cloud_api_enabled self && force_proxy)
        (_build_query_params payload return_fields)
  | OpCreate _ _ return_fields => _build_query_params None return_fields
  | OpCall func_name _ _ return_fields =>
      dict_set "_function" (PStr func_name)
        (_build_query_params None return_fields)
  | OpUpdate _ _ return_fields => _build_query_params None return_fields
  | OpDelete _ => []
  end.

(** The extensible attributes of an operation's requests: only a get
    filters on them. *)
Definition op_extattrs (op : operation) : list (string * extattr) :=
  match op with
  | OpGet _ _ _ extattrs _ => or_empty extattrs
  | _ => []
  end.

(** The URL of an operation's first request. *)
Definition first_url (self : Connector) (op : operation) : string :=
  urljoin (wapi_url self) (quote (op_path op))
  ++ query_string (op_params self op) (op_extattrs op).

(** The most requests one run of an operation sends. *)
Definition max_requests (op : operation) : nat :=
  match op with
  | OpGet _ _ _ _ _ => 2%nat
  | _ => 1%nat
  end.

(** The decimal digits of a number, as a version string writes them. *)
Definition decimal (n : nat) : string :=
  DecimalString.NilEmpty.string_of_uint (Nat.to_uint n).

(** ** Further scenarios *)

(** An appliance that is never reached: every request times out. *)
Definition timeout_server (e : transport_info) : appliance :=
  fun _ _ => TimedOut e.

(** The connector of the default version 1.4, which is not
    cloud-capable. *)
Definition standalone_connector : Connector :=
  {| host := PStr "nios.example.com";
     wapi_version := PStr "1.4";
     username := PStr "a";
     password := PStr "b";
     ssl_verify := PBool false;
     http_request_timeout := PInt 10;
     http_pool_connections := PInt 10;
     http_pool_maxsize := PInt 10;
     silent_ssl_warnings := PBool false;
     log_api_calls_as_info := PBool false;
     wapi_url := "https://nios.example.com/wapi/v1.4/";
     cloud_api_enabled := false |}.

(** The options of [cloud_options] with the number 2 as version. *)
Definition numeric_version_options : options_source :=
  OptionsDict [("host", PStr "nios.example.com");
               ("username", PStr "a");
               ("password", PStr "b");
               ("wapi_version", PInt 2)].

(** A reference to a network, and the request that deletes it. *)
Definition network_ref : string := "network/ZG5z".

Definition delete_network_request : request :=
  {| method := DELETE;
     url := "https://nios.example.com/wapi/v2.5/network/ZG5z";
     opts := plain_opts |}.

(** A payload that sets a comment, and the request that updates the
    network with it. *)
Definition comment_payload : pyval := PDict [("comment", PStr "lab")].

Definition update_network_request : request :=
  {| method := PUT;
     url := "https://nios.example.com/wapi/v2.5/network/ZG5z";
     opts := {| verify := PBool false; timeout := PInt 10;
                headers := DEFAULT_HEADER;
                data := Some ("{" ++ dq ++ "comment" ++ dq ++ ": "
                              ++ dq ++ "lab" ++ dq ++ "}") |} |}.

(** ** The requests a run makes *)

(** The first request of an operation on a valid target: its method,
    its first URL, the connector's options and the operation's body. *)
Definition first_request (self : Connector) (op : operation) : request :=
  {| method := op_method op;
     url := first_url self op;
     opts := {| verify := ssl_verify self;
                timeout := http_request_timeout self;
                headers := DEFAULT_HEADER;
                data := op_body op |} |}.

(** The second request of a get: the same path and extensible
    attributes, with [_proxy_search=GM] put into the parameters. *)
Definition proxied_request (self : Connector) (obj_type : string)
    (payload : option dict) (return_fields : option (list string))
    (extattrs : option (list (string * extattr))) : request :=
  {| method := GET;
     url := urljoin (wapi_url self) (quote obj_type)
            ++ query_string
                 (dict_set "_proxy_search" (PStr "GM")
                    (_build_query_params payload return_fields))
                 (or_empty extattrs);
     opts := {| verify := ssl_verify self;
                timeout := http_request_timeout self;
                headers := DEFAULT_HEADER;
                data := None |} |}.

(** * Properties *)

(** ** Strings and digits *)

Lemma span_digits_split (s ds rest : string) :
  span_digits s = (ds, rest) -> s = ds ++ rest /\ all_digits ds = true.
Proof.
  revert ds rest. induction s as [|c s IH]; intros ds rest H; simpl in H.
  - inversion H; subst. split; reflexivity.
  - destruct (is_digit c) eqn:Hc.
    + destruct (span_digits s) as [ds' rest'] eqn:Hs.
      inversion H; subst. destruct (IH ds' rest eq_refl) as [-> Hd].
      split; [reflexivity | simpl; now rewrite Hc, Hd].
    + inversion H; subst. split; reflexivity.
Qed.

(** A run of digits ends where the next character is not a digit. *)
Definition stops_digits (rest : string) : Prop :=
  match rest with
  | EmptyString => True
  | String c _ => is_digit c = false
  end.

Lemma span_digits_exact (ds rest : string) :
  all_digits ds = true -> stops_digits rest ->
  span_digits (ds ++ rest) = (ds, rest).
Proof.
  induction ds as [|c ds IH]; simpl; intros Hd Hr.
  - destruct rest as [|c r]; simpl in *; [reflexivity | now rewrite Hr].
  - apply andb_prop in Hd as [Hc Hd]. rewrite Hc, (IH Hd Hr). reflexivity.
Qed.

Lemma span_digits_prefix (ds rest : string) :
  all_digits ds = true ->
  exists more rest', span_digits (ds ++ rest) = (ds ++ more, rest').
Proof.
  induction ds as [|c ds IH]; simpl; intros Hd.
  - destruct (span_digits rest) as [g r]. now exists g, r.
  - apply andb_prop in Hd as [Hc Hd]. rewrite Hc.
    destruct (IH Hd) as (more & rest' & ->). now exists more, rest'.
Qed.

Lemma dot_is_not_digit : is_digit "."%char = false.
Proof. reflexivity. Qed.

Lemma match_version_here_sound (s g1 g2 : string) :
  match_version_here s = Some (g1, g2) ->
  exists rest, version_at s "" g1 g2 rest.
Proof.
  unfold match_version_here.
  destruct (span_digits s) as [d1 r1] eqn:E1.
  destruct d1 as [|c1 d1]; [discriminate|].
  destruct r1 as [|c r2]; [discriminate|].
  destruct (Ascii.eqb_spec c "."%char) as [->|Hne].
  2:{ destruct c as [[] [] [] [] [] [] [] []]; try discriminate.
      now contradiction Hne. }
  destruct (span_digits r2) as [d2 r3] eqn:E2.
  destruct d2 as [|c2 d2]; [discriminate|].
  intros H; inversion H; subst.
  apply span_digits_split in E1 as [-> H1].
  apply span_digits_split in E2 as [-> H2].
  exists r3. repeat split; try assumption; discriminate.
Qed.

Lemma match_version_here_complete (major minor rest : string) :
  major <> "" -> minor <> "" ->
  all_digits major = true -> all_digits minor = true ->
  exists g2,
    match_version_here (major ++ "." ++ minor ++ rest) = Some (major, g2).
Proof.
  intros Hm Hn Hdm Hdn. unfold match_version_here.
  rewrite (span_digits_exact major ("." ++ minor ++ rest) Hdm dot_is_not_digit).
  destruct major as [|c major]; [congruence|].
  simpl append at 1.
  destruct (span_digits_prefix minor rest Hdn) as (more & rest' & ->).
  destruct minor as [|c' minor]; [congruence|]. simpl.
  now eexists.
Qed.

Lemma re_search_version_here (s : string) (g : string * string) :
  match_version_here s = Some g -> re_search_version s = Some g.
Proof. intros H. destruct s; cbn [re_search_version]; now rewrite H. Qed.

Lemma re_search_version_sound (s g1 g2 : string) :
  re_search_version s = Some (g1, g2) ->
  exists pre rest, version_at s pre g1 g2 rest.
Proof.
  induction s as [|c s IH]; simpl.
  - discriminate.
  - destruct (match_version_here (String c s)) as [[h1 h2]|] eqn:E.
    + intros H; inversion H; subst.
      destruct (match_version_here_sound _ _ _ E) as [rest Hv].
      now exists "", rest.
    + intros H. destruct (IH H) as (pre & rest & Heq & Hrest).
      exists (String c pre), rest. split; [simpl; now rewrite Heq | exact Hrest].
Qed.

Lemma re_search_version_first (s pre major minor rest : string) :
  first_version s pre major minor rest ->
  exists g2, re_search_version s = Some (major, g2).
Proof.
  revert s. induction pre as [|c pre IH]; intros s [[Heq (Hm & Hn & Hdm & Hdn)] Hleft].
  - simpl in Heq. subst s.
    destruct (match_version_here_complete major minor rest Hm Hn Hdm Hdn)
      as [g2 E].
    exists g2. now apply re_search_version_here.
  - subst s.
    change (String c pre ++ major ++ "." ++ minor ++ rest)
      with (String c (pre ++ major ++ "." ++ minor ++ rest)) in *.
    set (tail := pre ++ major ++ "." ++ minor ++ rest) in *.
    cbn [re_search_version].
    destruct (match_version_here (String c tail)) as [[h1 h2]|] eqn:E.
    + destruct (match_version_here_sound _ _ _ E) as [rest' Hv].
      specialize (Hleft _ _ _ _ Hv). simpl in Hleft. lia.
    + apply IH. split; [repeat split; assumption|].
      intros pre' major' minor' rest' (Heq' & Hrest').
      assert (Hv : version_at (String c tail)
                     (String c pre') major' minor' rest').
      { split; [exact (f_equal (String c) Heq') | exact Hrest']. }
      specialize (Hleft _ _ _ _ Hv). simpl in Hleft. lia.
Qed.

Lemma str_in_cons (needle : string) (c : ascii) (hay : string) :
  str_in needle (String c hay)
  = prefix needle (String c hay) || str_in needle hay.
Proof. reflexivity. Qed.

Lemma str_in_slash (before after : string) :
  str_in "/" (before ++ "/" ++ after) = true.
Proof.
  induction before as [|c before IH].
  - destruct after; reflexivity.
  - change (String c before ++ "/" ++ after)
      with (String c (before ++ "/" ++ after)).
    rewrite str_in_cons, IH. apply orb_true_r.
Qed.

Lemma prefix_slash (hay : string) :
  prefix "/" hay = true -> exists rest, hay = String "/" rest.
Proof.
  destruct hay as [|c hay]; cbn [prefix]; [discriminate|].
  destruct (ascii_dec "/" c) as [<-|]; intros H; [now exists hay | discriminate].
Qed.

Lemma str_in_slash_inv (s : string) :
  str_in "/" s = true -> contains_slash s.
Proof.
  induction s as [|c s IH].
  - discriminate.
  - rewrite str_in_cons. intros H. apply orb_prop in H as [H|H].
    + destruct (prefix_slash _ H) as [rest Heq]. now exists "", rest.
    + destruct (IH H) as [before [after Heq]].
      exists (String c before), after. now rewrite Heq.
Qed.

Lemma truthy_str (s : string) : s <> "" -> truthy (PStr s) = true.
Proof. destruct s; [congruence | reflexivity]. Qed.

Lemma re_search_version_complete (s pre major minor rest : string) :
  version_at s pre major minor rest -> re_search_version s <> None.
Proof.
  revert s. induction pre as [|c pre IH]; intros s (Heq & Hm & Hn & Hdm & Hdn).
  - subst s.
    destruct (match_version_here_complete major minor rest Hm Hn Hdm Hdn)
      as [g2 E].
    apply re_search_version_here in E.
    change ("" ++ major ++ "." ++ minor ++ rest)
      with (major ++ "." ++ minor ++ rest).
    now rewrite E.
  - subst s.
    change (String c pre ++ major ++ "." ++ minor ++ rest)
      with (String c (pre ++ major ++ "." ++ minor ++ rest)).
    set (tail := pre ++ major ++ "." ++ minor ++ rest).
    cbn [re_search_version].
    destruct (match_version_here (String c tail)); [discriminate|].
    apply IH. now repeat split.
Qed.

(** ** The object-type validator *)

(** C8: the validator raises the validation error for the empty object
    type whatever [obj_type_expected] is; with [obj_type_expected] set it
    also raises it for every object type that contains a slash; without
    it, every non-empty object type passes.  So [net/work] passes as a
    reference and fails as a type. *)
Theorem validate_obj_type_or_die_spec :
  (forall expected,
      _validate_obj_type_or_die "" expected
      = Raise (ValueError "NIOS object type cannot be empty.")) /\
  (forall obj_type,
      contains_slash obj_type ->
      _validate_obj_type_or_die obj_type true
      = Raise (ValueError "NIOS object type cannot contain slash.")) /\
  (forall obj_type,
      obj_type <> "" -> _validate_obj_type_or_die obj_type false = Ok tt) /\
  _validate_obj_type_or_die "net/work" false = Ok tt /\
  _validate_obj_type_or_die "net/work" true
  = Raise (ValueError "NIOS object type cannot contain slash.").
Proof.
  repeat split.
  - intros obj_type [before [after ->]]. unfold _validate_obj_type_or_die.
    rewrite truthy_str, str_in_slash; [reflexivity|].
    destruct before; discriminate.
  - intros obj_type Hne. unfold _validate_obj_type_or_die.
    now rewrite truthy_str.
Qed.

(** With [obj_type_expected] set, the slash is the only thing a
    non-empty object type can fail on. *)
Lemma validate_obj_type_expected_ok (obj_type : string) :
  obj_type <> "" -> ~ contains_slash obj_type ->
  _validate_obj_type_or_die obj_type true = Ok tt.
Proof.
  intros Hne Hno. unfold _validate_obj_type_or_die.
  rewrite truthy_str by assumption. simpl.
  destruct (str_in "/" obj_type) eqn:E; [|reflexivity].
  now apply str_in_slash_inv in E.
Qed.

(** ** The version gate *)

(** C5: [is_cloud_wapi] raises the validation error for an argument
    that is not a string or is the empty string; for any other argument
    it answers whether the major number of the first [major.minor]
    pattern of the string is at least 2.  So 2.5 is cloud-capable, 1.4 is
    not, and the empty string and the number 123 are refused. *)
Theorem is_cloud_wapi_spec :
  (forall v,
      is_string v = false \/ v = PStr "" ->
      is_cloud_wapi v = Raise (ValueError "Invalid argument was passed")) /\
  (forall s pre major minor rest,
      first_version s pre major minor rest ->
      is_cloud_wapi (PStr s) = Ok (2 <=? int_of_digits major)) /\
  is_cloud_wapi (PStr "2.5") = Ok true /\
  is_cloud_wapi (PStr "1.4") = Ok false /\
  is_cloud_wapi (PStr "") = Raise (ValueError "Invalid argument was passed") /\
  is_cloud_wapi (PInt 123) = Raise (ValueError "Invalid argument was passed").
Proof.
  repeat split.
  - intros v [Hv | ->]; [|reflexivity].
    unfold is_cloud_wapi. rewrite Hv, andb_false_r. reflexivity.
  - intros s pre major minor rest Hfirst.
    assert (Hne : s <> "").
    { destruct Hfirst as [(-> & Hm & _) _].
      destruct pre; [destruct major; [congruence | discriminate] | discriminate]. }
    destruct (re_search_version_first _ _ _ _ _ Hfirst) as [g2 E].
    unfold is_cloud_wapi. rewrite truthy_str by assumption. simpl.
    rewrite E. unfold CLOUD_WAPI_MAJOR_VERSION.
    now destruct (2 <=? int_of_digits major).
Qed.

(** C10: a non-empty string without any [digits.digits] pattern is not
    cloud-capable: [is_cloud_wapi] returns false and raises nothing. *)
Theorem is_cloud_wapi_no_version (s : string) :
  s <> "" ->
  (forall pre major minor rest, ~ version_at s pre major minor rest) ->
  is_cloud_wapi (PStr s) = Ok false.
Proof.
  intros Hne Hno. unfold is_cloud_wapi.
  rewrite truthy_str by assumption. simpl.
  destruct (re_search_version s) as [[g1 g2]|] eqn:E; [|reflexivity].
  destruct (re_search_version_sound _ _ _ E) as (pre & rest & Hv).
  now destruct (Hno _ _ _ _ Hv).
Qed.

(** ** Configuration *)

Lemma dict_get_set_same (k : string) (v : pyval) (d : dict) :
  dict_get k (dict_set k v d) = Some v.
Proof.
  induction d as [|[k' v'] d IH]; simpl.
  - now rewrite String.eqb_refl.
  - destruct (k =? k')%string eqn:E; simpl; rewrite ?String.eqb_refl, ?E; auto.
Qed.

Lemma dict_get_set_other (k k' : string) (v : pyval) (d : dict) :
  k <> k' -> dict_get k (dict_set k' v d) = dict_get k d.
Proof.
  intros Hne. induction d as [|[k0 v0] d IH]; simpl.
  - now apply String.eqb_neq in Hne as ->.
  - destruct (k' =? k0)%string eqn:E; simpl.
    + apply String.eqb_eq in E as <-.
      now apply String.eqb_neq in Hne as ->.
    + now rewrite IH.
Qed.

Lemma resolve_option_resolved (options : options_source) (attr : string)
    (v : pyval) :
  resolve_option options attr = Ok v <-> resolved options attr = Some v.
Proof.
  unfold resolve_option, resolved.
  destruct (provided options attr); [split; congruence|].
  destruct (dict_get attr DEFAULT_OPTIONS); split; congruence.
Qed.

Lemma resolve_option_undefined (options : options_source) (attr : string) :
  undefined_option options attr = true ->
  resolve_option options attr
  = Raise (InfobloxConfigException (not_defined_msg attr)).
Proof.
  unfold undefined_option, resolve_option.
  destruct (provided options attr); [discriminate|].
  destruct (dict_get attr DEFAULT_OPTIONS); [discriminate | reflexivity].
Qed.

Lemma resolve_option_defined (options : options_source) (attr : string) :
  undefined_option options attr = false ->
  exists v, resolve_option options attr = Ok v.
Proof.
  unfold undefined_option, resolve_option.
  destruct (provided options attr); [now eexists|].
  destruct (dict_get attr DEFAULT_OPTIONS); [now eexists | discriminate].
Qed.

(** The first loop stores, for every attribute of its list, the value
    the option resolves to, and leaves the other attributes alone. *)
Lemma copy_options_get (options : options_source) (attrs : list string) :
  forall self self',
    copy_options options attrs self = Ok self' ->
    forall attr,
      (In attr attrs -> dict_get attr self' = resolved options attr) /\
      (~ In attr attrs -> dict_get attr self' = dict_get attr self).
Proof.
  induction attrs as [|a attrs IH]; intros self self' H attr; simpl in H.
  - inversion H; subst. split; [intros [] | reflexivity].
  - destruct (resolve_option options a) as [v|] eqn:Hv; [|discriminate].
    simpl in H. destruct (IH _ _ H attr) as [Hin Hout].
    apply resolve_option_resolved in Hv.
    split.
    + intros Hattr. destruct (in_dec string_dec attr attrs) as [Hi|Hni].
      * now apply Hin.
      * destruct Hattr as [->|Hi]; [|contradiction].
        now rewrite (Hout Hni), dict_get_set_same.
    + intros Hni. rewrite Hout by (intros Hi; apply Hni; now right).
      apply dict_get_set_other. intros ->. apply Hni. now left.
Qed.

(** The first loop stops at the first option that is not defined. *)
Lemma copy_options_undefined (options : options_source)
    (attrs : list string) (attr : string) :
  forall self,
    find (undefined_option options) attrs = Some attr ->
    copy_options options attrs self
    = Raise (InfobloxConfigException (not_defined_msg attr)).
Proof.
  induction attrs as [|a attrs IH]; intros self H; simpl in H.
  - discriminate.
  - simpl. destruct (undefined_option options a) eqn:Hu.
    + inversion H; subst. now rewrite resolve_option_undefined.
    + destruct (resolve_option_defined _ _ Hu) as [v ->]. simpl. now apply IH.
Qed.

Lemma copy_options_defined (options : options_source) (attrs : list string) :
  forall self,
    find (undefined_option options) attrs = None ->
    exists self', copy_options options attrs self = Ok self'.
Proof.
  induction attrs as [|a attrs IH]; intros self H; simpl in H.
  - now eexists.
  - simpl. destruct (undefined_option options a) eqn:Hu; [discriminate|].
    destruct (resolve_option_defined _ _ Hu) as [v ->]. simpl. now apply IH.
Qed.

(** The second loop stops at the first blank attribute of its list. *)
Lemma check_not_blank_raise (options : options_source) (self : dict)
    (attrs : list string) (attr : string) :
  (forall a, In a attrs -> exists v,
        dict_get a self = Some v /\ resolved options a = Some v) ->
  find (blank_option options) attrs = Some attr ->
  check_not_blank self attrs
  = Raise (InfobloxConfigException (blank_msg attr)).
Proof.
  induction attrs as [|a attrs IH]; intros Hget H; simpl in H.
  - discriminate.
  - destruct (Hget a (or_introl eq_refl)) as (v & Hv & Hr).
    simpl. unfold getattr. rewrite Hv. simpl.
    unfold blank_option in H at 1. rewrite Hr in H.
    destruct (negb (truthy v)).
    + now inversion H.
    + apply IH; [|exact H]. intros b Hb. apply Hget. now right.
Qed.

Lemma check_not_blank_ok (options : options_source) (self : dict)
    (attrs : list string) :
  (forall a, In a attrs -> exists v,
        dict_get a self = Some v /\ resolved options a = Some v) ->
  find (blank_option options) attrs = None ->
  check_not_blank self attrs = Ok tt.
Proof.
  induction attrs as [|a attrs IH]; intros Hget H; simpl in H.
  - reflexivity.
  - destruct (Hget a (or_introl eq_refl)) as (v & Hv & Hr).
    simpl. unfold getattr. rewrite Hv. simpl.
    unfold blank_option in H at 1. rewrite Hr in H.
    destruct (negb (truthy v)); [discriminate|].
    apply IH; [|exact H]. intros b Hb. apply Hget. now right.
Qed.

Lemma getattr_copied (options : options_source) (self : dict) (attr : string) :
  copy_options options attributes [] = Ok self ->
  In attr attributes ->
  getattr self attr
  = match resolved options attr with
    | Some v => Ok v
    | None => Raise AttributeError
    end.
Proof.
  intros Hc Hin. unfold getattr.
  now rewrite (proj1 (copy_options_get _ _ _ _ Hc attr) Hin).
Qed.

Lemma copied_resolved (options : options_source) (self : dict) :
  copy_options options attributes [] = Ok self ->
  forall a, In a attributes ->
    exists v, dict_get a self = Some v /\ resolved options a = Some v.
Proof.
  intros Hc a Hin.
  pose proof (proj1 (copy_options_get _ _ _ _ Hc a) Hin) as Hget.
  assert (Hu : find (undefined_option options) attributes = None
               \/ exists b, find (undefined_option options) attributes = Some b).
  { destruct (find (undefined_option options) attributes); eauto. }
  destruct Hu as [Hu | [b Hu]].
  - pose proof (find_none _ _ Hu a Hin) as Ha.
    destruct (resolve_option_defined _ _ Ha) as [v Hv].
    apply resolve_option_resolved in Hv. exists v. now rewrite Hget.
  - rewrite (copy_options_undefined _ _ _ [] Hu) in Hc. discriminate.
Qed.

Ltac in_attributes :=
  unfold attributes; cbn [In]; repeat (first [left; reflexivity | right]).

Ltac required_in_attributes H :=
  cbn [In] in H;
  repeat (destruct H as [<- | H]; [in_attributes|]); contradiction.

(** What a successful [_parse_options] leaves in the connector. *)
Lemma parse_options_inv (options : options_source) (self : Connector) :
  _parse_options options = Ok self ->
  (forall attr, In attr attributes ->
                connector_attr self attr = resolved options attr) /\
  wapi_url self
  = "https://" ++ py_str (host self) ++ "/wapi/v"
      ++ py_str (wapi_version self) ++ "/" /\
  is_cloud_wapi (wapi_version self) = Ok (cloud_api_enabled self).
Proof.
  unfold _parse_options.
  destruct (copy_options options attributes []) as [self0|] eqn:Hc;
    [|discriminate].
  cbn [rbind].
  destruct (check_not_blank self0 ["host"; "username"; "password"]);
    [|discriminate].
  cbn [rbind].
  rewrite !(getattr_copied options self0 _ Hc) by in_attributes.
  destruct (resolved options "host") as [vh|] eqn:Eh; [|discriminate].
  destruct (resolved options "wapi_version") as [vw|] eqn:Ew; [|discriminate].
  destruct (resolved options "username") as [vu|] eqn:Eu; [|discriminate].
  destruct (resolved options "password") as [vp|] eqn:Ep; [|discriminate].
  destruct (resolved options "ssl_verify") as [vs|] eqn:Es; [|discriminate].
  destruct (resolved options "http_request_timeout") as [vt|] eqn:Et;
    [|discriminate].
  destruct (resolved options "http_pool_connections") as [vc|] eqn:Ec;
    [|discriminate].
  destruct (resolved options "http_pool_maxsize") as [vm|] eqn:Em;
    [|discriminate].
  destruct (resolved options "silent_ssl_warnings") as [vsw|] eqn:Esw;
    [|discriminate].
  destruct (resolved options "log_api_calls_as_info") as [vl|] eqn:El;
    [|discriminate].
  cbn [rbind].
  destruct (is_cloud_wapi vw) as [cloud|] eqn:Ecl; [|discriminate].
  cbn [rbind]. intros H. inversion H; subst; clear H. cbn.
  repeat split; try assumption.
  intros attr Hin. unfold attributes in Hin. simpl in Hin.
  repeat (destruct Hin as [<-|Hin]; [cbn; symmetry; assumption|]).
  contradiction.
Qed.

(** C3: construction resolves every recognized option to the value the
    source provides, else to its fixed default (ssl_verify false,
    silent_ssl_warnings false, http_request_timeout 10,
    http_pool_connections 10, http_pool_maxsize 10, wapi_version 1.4,
    log_api_calls_as_info false; host, username and password have none),
    else raises the configuration error that names the option; once all
    are resolved, an empty host, username or password raises the
    configuration error; and the base URL of a constructed connector is
    https://{host}/wapi/v{version}/. *)
Theorem parse_options_spec (options : options_source) :
  (forall self attr,
      _parse_options options = Ok self ->
      In attr attributes ->
      connector_attr self attr = resolved options attr) /\
  (forall attr,
      find (undefined_option options) attributes = Some attr ->
      _parse_options options
      = Raise (InfobloxConfigException
                 ("WAPI config error. Option " ++ attr ++ " is not defined"))) /\
  (forall attr,
      find (undefined_option options) attributes = None ->
      find (blank_option options) ["host"; "username"; "password"]
      = Some attr ->
      _parse_options options
      = Raise (InfobloxConfigException
                 ("WAPI config error. Option " ++ attr ++ " can not be blank"))) /\
  (forall self,
      _parse_options options = Ok self ->
      wapi_url self
      = "https://" ++ py_str (host self) ++ "/wapi/v"
          ++ py_str (wapi_version self) ++ "/") /\
  DEFAULT_OPTIONS
  = [("ssl_verify", PBool false);
     ("silent_ssl_warnings", PBool false);
     ("http_request_timeout", PInt 10);
     ("http_pool_connections", PInt 10);
     ("http_pool_maxsize", PInt 10);
     ("wapi_version", PStr "1.4");
     ("log_api_calls_as_info", PBool false)].
Proof.
  split; [|split; [|split; [|split]]].
  - intros self attr H Hin. now apply (parse_options_inv options self H).
  - intros attr Hu. unfold _parse_options.
    now rewrite (copy_options_undefined _ _ _ [] Hu).
  - intros attr Hu Hb. unfold _parse_options.
    destruct (copy_options_defined options attributes [] Hu) as [self0 Hc].
    rewrite Hc. cbn [rbind].
    rewrite (check_not_blank_raise options self0 _ attr); [reflexivity| |exact Hb].
    intros a Ha. apply (copied_resolved options self0 Hc).
    required_in_attributes Ha.
  - intros self H. now apply (parse_options_inv options self H).
  - reflexivity.
Qed.

(** Construction succeeds as soon as every option is defined, the
    three required ones are not blank and the version is a non-empty
    string. *)
Lemma parse_options_total (options : options_source) (version : string) :
  find (undefined_option options) attributes = None ->
  find (blank_option options) ["host"; "username"; "password"] = None ->
  resolved options "wapi_version" = Some (PStr version) ->
  version <> "" ->
  exists self, _parse_options options = Ok self.
Proof.
  intros Hu Hb Hw Hne. unfold _parse_options.
  destruct (copy_options_defined options attributes [] Hu) as [self0 Hc].
  rewrite Hc. cbn [rbind].
  rewrite (check_not_blank_ok options self0); [| |exact Hb].
  2:{ intros a Ha. apply (copied_resolved options self0 Hc).
      required_in_attributes Ha. }
  cbn [rbind].
  rewrite !(getattr_copied options self0 _ Hc) by in_attributes.
  rewrite Hw.
  destruct (copied_resolved options self0 Hc "host") as (vh & _ & ->);
    [in_attributes|].
  destruct (copied_resolved options self0 Hc "username") as (vu & _ & ->);
    [in_attributes|].
  destruct (copied_resolved options self0 Hc "password") as (vp & _ & ->);
    [in_attributes|].
  destruct (copied_resolved options self0 Hc "ssl_verify") as (vs & _ & ->);
    [in_attributes|].
  destruct (copied_resolved options self0 Hc "http_request_timeout")
    as (vt & _ & ->); [in_attributes|].
  destruct (copied_resolved options self0 Hc "http_pool_connections")
    as (vc & _ & ->); [in_attributes|].
  destruct (copied_resolved options self0 Hc "http_pool_maxsize")
    as (vm & _ & ->); [in_attributes|].
  destruct (copied_resolved options self0 Hc "silent_ssl_warnings")
    as (vsw & _ & ->); [in_attributes|].
  destruct (copied_resolved options self0 Hc "log_api_calls_as_info")
    as (vl & _ & ->); [in_attributes|].
  cbn [rbind]. unfold is_cloud_wapi.
  rewrite truthy_str by assumption. cbn [is_string andb negb].
  destruct (re_search_version version) as [[major minor]|]; cbn [rbind];
    [destruct (CLOUD_WAPI_MAJOR_VERSION <=? int_of_digits major)|];
    cbn [rbind]; now eexists.
Qed.

(** ** The URL builder *)

Lemma append_assoc (a b c : string) : (a ++ b) ++ c = a ++ b ++ c.
Proof. induction a as [|x a IH]; simpl; [reflexivity | now rewrite IH]. Qed.

Lemma concat_attr_query_length (e : string * extattr)
    (es : list (string * extattr)) :
  (1 <= String.length (String.concat "&" (map attr_query (e :: es))))%nat.
Proof.
  cbn [map String.concat]. destruct (map attr_query es); cbn; lia.
Qed.

Lemma starts_with_slash_false (s : string) :
  (forall rest, s <> String "/" rest) -> starts_with_slash s = false.
Proof.
  intros H. destruct s as [|c s]; [reflexivity|].
  destruct (Ascii.eqb_spec c "/"%char) as [->|Hne].
  - now destruct (H s).
  - unfold starts_with_slash.
    destruct c as [[] [] [] [] [] [] [] []]; try reflexivity.
    now contradiction Hne.
Qed.

(** The query the builder assembles is the query string of its contract. *)
Lemma construct_url_eq (self : Connector) (relative_path : string)
    (query_params : option dict) (extattrs : option (list (string * extattr)))
    (force_proxy : bool) :
  _construct_url self relative_path query_params extattrs force_proxy
  = (proxied_params force_proxy (or_empty query_params),
     if negb (truthy (PStr relative_path)) || starts_with_slash relative_path
     then Raise (ValueError "Path in request must be relative.")
     else Ok (urljoin (wapi_url self) (quote relative_path)
                ++ query_string
                     (proxied_params force_proxy (or_empty query_params))
                     (or_empty extattrs))).
Proof.
  unfold _construct_url, proxied_params.
  destruct query_params as [q|], extattrs as [ea|]; cbn [or_empty];
    set (params := if force_proxy then _ else _);
    f_equal;
    destruct (negb (truthy (PStr relative_path))
              || starts_with_slash relative_path); try reflexivity;
    f_equal; f_equal; unfold query_string.
  all: try (destruct params as [|p ps]; reflexivity).
  all: destruct ea as [|e es]; destruct params as [|p ps];
    cbn [truthy orb]; try reflexivity.
  all: pose proof (concat_attr_query_length e es) as Hlen;
    change (String.concat "&" (map attr_query (e :: es)))
      with (extattrs_segment (e :: es)) in *;
    destruct (1 <? String.length ("?" ++ extattrs_segment (e :: es)))%nat
      eqn:E;
    [ now rewrite !append_assoc
    | apply Nat.ltb_ge in E; cbn [String.length append] in E; lia ].
Qed.

(** C4: the URL builder raises the validation error for an empty
    relative path and for one that begins with a slash; for any other
    path it returns the base URL joined with the percent-encoded path,
    followed by the query string: a question mark, then the segment of
    the extensible attributes (each as [*key=value], joined by [&]),
    then the encoded ordinary parameters, with an [&] between the two
    when both are there; with [force_proxy] the pair [_proxy_search=GM]
    is among the parameters that are encoded. *)
Theorem construct_url_spec (self : Connector) (relative_path : string)
    (query_params : option dict) (extattrs : option (list (string * extattr)))
    (force_proxy : bool) :
  (relative_path = "" \/ (exists rest, relative_path = String "/" rest) ->
   snd (_construct_url self relative_path query_params extattrs force_proxy)
   = Raise (ValueError "Path in request must be relative.")) /\
  (relative_path <> "" -> (forall rest, relative_path <> String "/" rest) ->
   snd (_construct_url self relative_path query_params extattrs force_proxy)
   = Ok (urljoin (wapi_url self) (quote relative_path)
           ++ query_string
                (proxied_params force_proxy (or_empty query_params))
                (or_empty extattrs))) /\
  (force_proxy = true ->
   dict_get "_proxy_search"
     (proxied_params force_proxy (or_empty query_params))
   = Some (PStr "GM")) /\
  fst (_construct_url self relative_path query_params extattrs force_proxy)
  = proxied_params force_proxy (or_empty query_params).
Proof.
  rewrite construct_url_eq. cbn [fst snd].
  split; [|split; [|split]].
  - intros [-> | [rest ->]]; reflexivity.
  - intros Hne Hrel.
    now rewrite truthy_str, (starts_with_slash_false _ Hrel) by assumption.
  - intros ->. apply dict_get_set_same.
  - reflexivity.
Qed.

(** ** One request *)

Lemma construct_url_cases (self : Connector) (relative_path : string)
    (query_params : option dict) (extattrs : option (list (string * extattr)))
    (force_proxy : bool) :
  snd (_construct_url self relative_path query_params extattrs force_proxy)
  = Raise (ValueError "Path in request must be relative.")
  \/ exists url,
      snd (_construct_url self relative_path query_params extattrs force_proxy)
      = Ok url.
Proof.
  rewrite construct_url_eq. cbn [snd].
  destruct (negb (truthy (PStr relative_path))
            || starts_with_slash relative_path); eauto.
Qed.

Lemma validate_cases (obj_type : string) (expected : bool) :
  (exists msg, _validate_obj_type_or_die obj_type expected
               = Raise (ValueError msg))
  \/ _validate_obj_type_or_die obj_type expected = Ok tt.
Proof.
  unfold _validate_obj_type_or_die.
  destruct (negb (truthy (PStr obj_type))); [eauto|].
  destruct (expected && str_in "/" obj_type); eauto.
Qed.

(** Every operation but get: nothing is sent when the preparation
    raises; else one request is sent, and the result is the executor's
    reading of its outcome. *)
Ltac parsed_reply :=
  unfold _parse_reply;
  match goal with
  | |- context [loads (content ?r)] => destruct (loads (content r))
  end; reflexivity.

Lemma run_single (self : Connector) (op : operation) (st : session_state) :
  (forall o p r e f, op <> OpGet o p r e f) ->
  run self op st
  = match prepare self op with
    | Raise e => (Raise e, st)
    | Ok url =>
        (reply_result op (server (sent st) (request_of self op url)),
         after_request self st (request_of self op url))
    end.
Proof.
  intros Hop.
  destruct op as [o p rf ea fp | obj payload rf | f ref payload rf
                 | ref payload rf | ref];
    [now destruct (Hop o p rf ea fp) | | | |]; clear Hop;
    cbn [run prepare request_of].
  - unfold create_object, reraise_neutron_exception, bind, lift.
    destruct (validate_cases obj true) as [[msg ->] | ->]; [reflexivity|].
    cbn [rbind].
    destruct (construct_url_cases self obj
                (Some (_build_query_params None rf)) None false)
      as [-> | [u ->]]; [reflexivity|].
    unfold _log_request, session_request, reply_result, create_rejection,
      _validate_authorized, after_request, raise, ret, codes_UNAUTHORIZED,
      codes_CREATED, success_status.
    cbn [sent logged url opts].
    destruct (server (sent st) _) as [r|e|e]; [|reflexivity..].
    destruct (status_code r =? 401); [reflexivity|].
    destruct (status_code r =? 201); cbn [negb]; [parsed_reply|].
    unfold get_text, str_in_value.
    destruct (safe_json_load (content r)) as [|b|z|s0|l|d]; cbn [truthy].
    + reflexivity.
    + destruct b; reflexivity.
    + destruct (negb (z =? 0)); reflexivity.
    + destruct (negb (s0 =? "")%string); reflexivity.
    + destruct l; reflexivity.
    + destruct d as [|kv d]; [reflexivity|].
      destruct (dict_get "text" (kv :: d)) as [[|b|z|s0|l|d']|]; cbn [rbind];
        try reflexivity.
      * destruct (str_in _ s0); reflexivity.
      * destruct (existsb _ l); reflexivity.
      * destruct (dict_mem _ d'); reflexivity.
  - unfold call_func, reraise_neutron_exception, bind, lift.
    destruct (construct_url_cases self ref
                (Some (dict_set "_function" (PStr f)
                         (_build_query_params None rf))) None false)
      as [-> | [u ->]]; [reflexivity|].
    unfold _log_request, session_request, reply_result, jsonutils_loads,
      _validate_authorized, after_request, raise, ret, codes_UNAUTHORIZED,
      codes_CREATED, codes_ok, success_status, rejection.
    cbn [sent logged url opts].
    destruct (server (sent st) _) as [r|e|e]; [|reflexivity..].
    destruct (status_code r =? 401); [reflexivity|].
    destruct (status_code r =? 201), (status_code r =? 200); cbn [negb orb];
      parsed_reply.
  - unfold update_object, reraise_neutron_exception, bind, lift.
    destruct (construct_url_cases self ref
                (Some (_build_query_params None rf)) None false)
      as [-> | [u ->]]; [reflexivity|].
    unfold _log_request, session_request, reply_result, jsonutils_loads,
      _validate_authorized, after_request, raise, ret, codes_UNAUTHORIZED,
      codes_ok, success_status, rejection.
    cbn [sent logged url opts].
    destruct (server (sent st) _) as [r|e|e]; [|reflexivity..].
    destruct (status_code r =? 401); [reflexivity|].
    destruct (status_code r =? 200); cbn [negb]; parsed_reply.
  - unfold delete_object, reraise_neutron_exception, bind, lift.
    destruct (construct_url_cases self ref None None false)
      as [-> | [u ->]]; [reflexivity|].
    unfold _log_request, session_request, reply_result, jsonutils_loads,
      _validate_authorized, after_request, raise, ret, codes_UNAUTHORIZED,
      codes_ok, success_status, rejection.
    cbn [sent logged url opts].
    destruct (server (sent st) _) as [r|e|e]; [|reflexivity..].
    destruct (status_code r =? 401); [reflexivity|].
    destruct (status_code r =? 200); cbn [negb]; parsed_reply.
Qed.

(** One [_get_object]: a request is sent and its outcome read; the
    exceptions of the transport are still those of [requests]. *)
Lemma get_object_once (self : Connector) (obj_type u : string)
    (payload : option dict) (return_fields : option (list string))
    (extattrs : option (list (string * extattr))) (force_proxy : bool)
    (st : session_state) :
  reraise_neutron_exception (_get_object self obj_type u) st
  = (reply_result
       (OpGet obj_type payload return_fields extattrs force_proxy)
       (server (sent st)
          {| method := GET; url := u;
             opts := _get_request_options self None |}),
     after_request self st
       {| method := GET; url := u; opts := _get_request_options self None |}).
Proof.
  unfold _get_object, reraise_neutron_exception, bind, lift.
  unfold _log_request, session_request, reply_result, jsonutils_loads,
    _validate_authorized, after_request, raise, ret, codes_UNAUTHORIZED,
    codes_ok, success_status, rejection.
  cbn [sent logged url opts].
  destruct (server (sent st) _) as [r|e|e]; [|reflexivity..].
  destruct (status_code r =? 401); [reflexivity|].
  destruct (status_code r =? 200); cbn [negb]; parsed_reply.
Qed.

(** [get_object]: nothing is sent when the preparation raises; else a
    first request is sent, and a second one only when the first reply
    reads as an empty result, the connector is cloud-capable and the
    caller did not force the proxy. *)
Lemma get_object_run (self : Connector) (obj_type : string)
    (payload : option dict) (return_fields : option (list string))
    (extattrs : option (list (string * extattr))) (force_proxy : bool)
    (st : session_state) :
  get_object self obj_type payload return_fields extattrs force_proxy st
  = match prepare self
            (OpGet obj_type payload return_fields extattrs force_proxy) with
    | Raise e => (Raise e, st)
    | Ok url1 =>
        match
          reply_result
            (OpGet obj_type payload return_fields extattrs force_proxy)
            (server (sent st)
               (request_of self
                  (OpGet obj_type payload return_fields extattrs force_proxy)
                  url1))
        with
        | Raise e =>
            (Raise e,
             after_request self st
               (request_of self
                  (OpGet obj_type payload return_fields extattrs force_proxy)
                  url1))
        | Ok v1 =>
            if truthy v1
            then (Ok v1,
                  after_request self st
                    (request_of self
                       (OpGet obj_type payload return_fields extattrs
                          force_proxy) url1))
            else if cloud_api_enabled self && negb force_proxy
            then
              match proxied_url self obj_type payload return_fields
                      extattrs with
              | Raise e =>
                  (Raise e,
                   after_request self st
                     (request_of self
                        (OpGet obj_type payload return_fields extattrs
                           force_proxy) url1))
              | Ok url2 =>
                  (or_none
                     (reply_result
                        (OpGet obj_type payload return_fields extattrs
                           force_proxy)
                        (server
                           (sent st
                            ++ [request_of self
                                  (OpGet obj_type payload return_fields
                                     extattrs force_proxy) url1])%list
                           (request_of self
                              (OpGet obj_type payload return_fields
                                 extattrs force_proxy) url2))),
                   after_request self
                     (after_request self st
                        (request_of self
                           (OpGet obj_type payload return_fields extattrs
                              force_proxy) url1))
                     (request_of self
                        (OpGet obj_type payload return_fields extattrs
                           force_proxy) url2))
              end
            else (Ok PNone,
                  after_request self st
                    (request_of self
                       (OpGet obj_type payload return_fields extattrs
                          force_proxy) url1))
        end
    end.
Proof.
  unfold get_object. unfold proxied_url; cbn [prepare request_of].
  destruct (validate_cases obj_type false) as [[msg Hv] | Hv]; rewrite Hv;
    [reflexivity|]. cbn [rbind].
  rewrite !construct_url_eq. cbn [fst snd or_empty].
  destruct (negb (truthy (PStr obj_type)) || starts_with_slash obj_type);
    [reflexivity|].
  set (u1 := urljoin (wapi_url self) (quote obj_type)
             ++ query_string
                  (proxied_params (cloud_api_enabled self && force_proxy)
                     (_build_query_params payload return_fields))
                  (or_empty extattrs)).
  pose proof (get_object_once self obj_type u1 payload return_fields extattrs
                force_proxy st) as H1.
  unfold reraise_neutron_exception in *. unfold bind at 1 2. unfold lift at 1 2.
  unfold bind at 1.
  destruct (_get_object self obj_type u1 st) as [[v1|e1] st1] eqn:E1.
  - injection H1 as H1 Hst. rewrite <- H1, <- Hst.
    destruct (truthy v1); [reflexivity|].
    destruct (cloud_api_enabled self && negb force_proxy) eqn:Hc;
      [|reflexivity].
    assert (Hf : cloud_api_enabled self && force_proxy = false)
      by (destruct (cloud_api_enabled self), force_proxy;
          try discriminate; reflexivity).
    replace (proxied_params (cloud_api_enabled self && force_proxy)
               (_build_query_params payload return_fields))
      with (_build_query_params payload return_fields)
      by (now rewrite Hf).
    set (u2 := urljoin (wapi_url self) (quote obj_type)
               ++ query_string
                    (proxied_params true
                       (_build_query_params payload return_fields))
                    (or_empty extattrs)).
    pose proof (get_object_once self obj_type u2 payload return_fields
                  extattrs force_proxy st1) as H2.
    unfold reraise_neutron_exception in H2.
    unfold bind, lift, ret.
    replace (sent st
             ++ [{| method := GET; url := u1;
                    opts := _get_request_options self None |}])%list
      with (sent st1) by (now rewrite Hst).
    destruct (_get_object self obj_type u2 st1) as [[v2|e2] st2] eqn:E2.
    + injection H2 as H2 Hst2. rewrite <- H2, <- Hst2. cbn [or_none].
      destruct (truthy v2); reflexivity.
    + destruct e2; injection H2 as H2 Hst2; rewrite <- H2, <- Hst2;
        reflexivity.
  - destruct e1; injection H1 as H1 Hst; rewrite <- H1, <- Hst; reflexivity.
Qed.

(** ** The last reply of a run *)

Lemma last_reply_unsent (st st' : session_state) (req : request)
    (r : response) :
  sent st' = sent st -> ~ last_reply st st' req r.
Proof.
  intros Heq (earlier & Hsent & Hlen & _).
  rewrite Heq in Hsent. rewrite Hsent, length_app in Hlen. simpl in Hlen. lia.
Qed.

Lemma last_reply_one (self : Connector) (st : session_state)
    (req0 req : request) (r : response) :
  last_reply st (after_request self st req0) req r ->
  req = req0 /\ server (sent st) req0 = Responded r.
Proof.
  intros (earlier & Hsent & _ & Hr). cbn [after_request sent] in Hsent.
  apply app_inj_tail in Hsent as [<- <-]. now split.
Qed.

Lemma last_reply_two (self : Connector) (st : session_state)
    (req1 req2 req : request) (r : response) :
  last_reply st (after_request self (after_request self st req1) req2) req r ->
  req = req2 /\ server (sent st ++ [req1])%list req2 = Responded r.
Proof.
  intros (earlier & Hsent & _ & Hr). cbn [after_request sent] in Hsent.
  apply app_inj_tail in Hsent as [<- <-]. now split.
Qed.

(** Whatever the operation, what it returns is the executor's reading
    of the last reply it received. *)
Lemma run_last_reply (self : Connector) (op : operation)
    (st st' : session_state) (res : result pyval) (req : request)
    (r : response) :
  run self op st = (res, st') ->
  last_reply st st' req r ->
  res = finish op (reply_result op (Responded r)).
Proof.
  intros Hrun Hlast.
  destruct op as [o p rf ea fp | obj payload rf | f ref payload rf
                 | ref payload rf | ref].
  - cbn [run] in Hrun. rewrite get_object_run in Hrun. cbn [finish].
    cbn [request_of] in Hrun.
    destruct (prepare self _) as [u1|e] eqn:Hprep.
    2:{ inversion Hrun; subst.
        now destruct (last_reply_unsent st' st' req r eq_refl). }
    destruct (reply_result _ (server (sent st) _)) as [v1|e1] eqn:H1.
    2:{ inversion Hrun; subst.
        apply last_reply_one in Hlast as [_ Hr]. rewrite Hr in H1.
        now rewrite H1. }
    destruct (truthy v1) eqn:Ht.
    { inversion Hrun; subst.
      apply last_reply_one in Hlast as [_ Hr]. rewrite Hr in H1.
      rewrite H1. cbn [or_none]. now rewrite Ht. }
    destruct (cloud_api_enabled self && negb fp).
    2:{ inversion Hrun; subst.
        apply last_reply_one in Hlast as [_ Hr]. rewrite Hr in H1.
        rewrite H1. cbn [or_none]. now rewrite Ht. }
    destruct (proxied_url self _ _ _ _) as [u2|e2] eqn:Hu2.
    + inversion Hrun; subst.
      apply last_reply_two in Hlast as [_ Hr]. now rewrite Hr.
    + exfalso. unfold proxied_url in Hu2. cbn [prepare] in Hprep.
      rewrite construct_url_eq in Hprep, Hu2. cbn [snd] in Hprep, Hu2.
      destruct (_validate_obj_type_or_die o false); [|discriminate].
      cbn [rbind] in Hprep.
      destruct (negb (truthy (PStr o)) || starts_with_slash o); discriminate.
  - rewrite run_single in Hrun by discriminate. cbn [finish].
    destruct (prepare self _) as [u|e].
    + inversion Hrun; subst.
      apply last_reply_one in Hlast as [_ Hr]. now rewrite Hr.
    + inversion Hrun; subst.
      now destruct (last_reply_unsent st' st' req r eq_refl).
  - rewrite run_single in Hrun by discriminate. cbn [finish].
    destruct (prepare self _) as [u|e].
    + inversion Hrun; subst.
      apply last_reply_one in Hlast as [_ Hr]. now rewrite Hr.
    + inversion Hrun; subst.
      now destruct (last_reply_unsent st' st' req r eq_refl).
  - rewrite run_single in Hrun by discriminate. cbn [finish].
    destruct (prepare self _) as [u|e].
    + inversion Hrun; subst.
      apply last_reply_one in Hlast as [_ Hr]. now rewrite Hr.
    + inversion Hrun; subst.
      now destruct (last_reply_unsent st' st' req r eq_refl).
  - rewrite run_single in Hrun by discriminate. cbn [finish].
    destruct (prepare self _) as [u|e].
    + inversion Hrun; subst.
      apply last_reply_one in Hlast as [_ Hr]. now rewrite Hr.
    + inversion Hrun; subst.
      now destruct (last_reply_unsent st' st' req r eq_refl).
Qed.

(** What a run returns is what its preparation raised, or the
    executor's reading of some outcome. *)
Lemma run_result_source (self : Connector) (op : operation)
    (st st' : session_state) (res : result pyval) :
  run self op st = (res, st') ->
  (exists msg, res = Raise (ValueError msg))
  \/ (exists o, res = finish op (reply_result op o)).
Proof.
  intros Hrun.
  assert (Hprep : forall e, prepare self op = Raise e ->
                            exists msg, e = ValueError msg).
  { intros e. destruct op; cbn [prepare];
      try (destruct (validate_cases obj_type false) as [[msg ->] | ->]);
      try (destruct (validate_cases obj_type true) as [[msg ->] | ->]);
      cbn [rbind]; try (intros H; inversion H; now eexists);
      match goal with
      | |- snd (_construct_url ?s ?p ?q ?a ?f) = _ -> _ =>
          destruct (construct_url_cases s p q a f) as [-> | [u ->]]
      end; intros H; inversion H; now eexists. }
  destruct op as [o p rf ea fp | obj payload rf | f ref payload rf
                 | ref payload rf | ref].
  - cbn [run] in Hrun. rewrite get_object_run in Hrun. cbn [finish].
    cbn [request_of] in Hrun.
    destruct (prepare self _) as [u1|e] eqn:Hp.
    2:{ inversion Hrun; subst. left.
        destruct (Hprep _ eq_refl) as [msg ->]. now eexists. }
    destruct (reply_result _ (server (sent st) _)) as [v1|e1] eqn:H1.
    2:{ inversion Hrun; subst. right. eexists. now rewrite H1. }
    destruct (truthy v1) eqn:Ht.
    { inversion Hrun; subst. right. eexists. rewrite H1. cbn [or_none].
      now rewrite Ht. }
    destruct (cloud_api_enabled self && negb fp).
    2:{ inversion Hrun; subst. right. eexists. rewrite H1. cbn [or_none].
        now rewrite Ht. }
    destruct (proxied_url self _ _ _ _) as [u2|e2] eqn:Hu2.
    + inversion Hrun; subst. right. now eexists.
    + inversion Hrun; subst. left. unfold proxied_url in Hu2.
      destruct (construct_url_cases self o
                  (Some (_build_query_params p rf)) ea true)
        as [H | [u H]]; rewrite H in Hu2; inversion Hu2. now eexists.
  - rewrite run_single in Hrun by discriminate. cbn [finish].
    destruct (prepare self _) as [u|e] eqn:Hp; inversion Hrun; subst;
      [right; now eexists
      | left; destruct (Hprep _ eq_refl) as [msg ->]; now eexists].
  - rewrite run_single in Hrun by discriminate. cbn [finish].
    destruct (prepare self _) as [u|e] eqn:Hp; inversion Hrun; subst;
      [right; now eexists
      | left; destruct (Hprep _ eq_refl) as [msg ->]; now eexists].
  - rewrite run_single in Hrun by discriminate. cbn [finish].
    destruct (prepare self _) as [u|e] eqn:Hp; inversion Hrun; subst;
      [right; now eexists
      | left; destruct (Hprep _ eq_refl) as [msg ->]; now eexists].
  - rewrite run_single in Hrun by discriminate. cbn [finish].
    destruct (prepare self _) as [u|e] eqn:Hp; inversion Hrun; subst;
      [right; now eexists
      | left; destruct (Hprep _ eq_refl) as [msg ->]; now eexists].
Qed.

(** A typed rejection the executor reads off an outcome carries the
    decoded content of the reply. *)
Lemma reply_result_rejection (op : operation) (o : outcome)
    (body : pyval) (raw : string) (code : Z) :
  (forall t p f, op <> OpCreate t p f) ->
  finish op (reply_result op o) = Raise (rejection op body raw code) ->
  loads raw = Some body.
Proof.
  intros Hop.
  assert (Hres : reply_result op o = Raise (rejection op body raw code) ->
                 loads raw = Some body).
  { unfold reply_result, _parse_reply.
    destruct o as [r|i|i]; [|destruct op; discriminate..].
    destruct (status_code r =? 401); [destruct op; discriminate|].
    destruct (success_status op (status_code r)).
    - destruct (loads (content r)); destruct op; discriminate.
    - destruct op as [t p rf ea fp | t p rf | f ref p rf | ref p rf | ref];
        [ | now destruct (Hop t p rf) | | | ];
        cbn [rejection];
        destruct (loads (content r)) eqn:Hl; intros H; inversion H; subst;
        exact Hl. }
  destruct op; cbn [finish]; try exact Hres.
  unfold or_none. destruct (reply_result _ o) as [v|e'] eqn:Hr.
  - destruct (truthy v); discriminate.
  - exact Hres.
Qed.

Lemma finish_raise (op : operation) (e : exn) :
  finish op (Raise e) = Raise e.
Proof. now destruct op. Qed.

(** ** The proxy retry of get *)

Lemma reply_result_ok (op : operation) (r : response) (v : pyval) :
  success_status op (status_code r) = true ->
  loads (content r) = Some v ->
  reply_result op (Responded r) = Ok v.
Proof.
  intros Hcode Hv. cbn [reply_result].
  assert (H401 : (status_code r =? 401) = false).
  { destruct (status_code r =? 401) eqn:E; [|reflexivity].
    apply Z.eqb_eq in E. rewrite E in Hcode. now destruct op. }
  rewrite H401, Hcode. unfold _parse_reply. now rewrite Hv.
Qed.

Lemma reply_result_failure (obj_type : string) (payload : option dict)
    (return_fields : option (list string))
    (extattrs : option (list (string * extattr))) (force_proxy : bool)
    (r : response) :
  status_code r <> 200 ->
  exists e,
    reply_result (OpGet obj_type payload return_fields extattrs force_proxy)
      (Responded r) = Raise e.
Proof.
  intros Hcode. cbn [reply_result success_status rejection].
  apply Z.eqb_neq in Hcode. rewrite Hcode.
  destruct (status_code r =? 401); [now eexists|].
  destruct (loads (content r)); now eexists.
Qed.

(** C1, as the code has it: a get sends at most two requests.  When the
    first reply is a success with an empty result, a cloud-capable
    connector whose caller did not force the proxy sends exactly one
    more request, built with the proxy forced, and returns what that
    second reply parses to when it is not empty and [None] when it is;
    any other connector or call returns [None] without a second request.
    A first reply with a non-empty result is returned after that one
    request, and a first reply with an error status raises after that one
    request. *)
Theorem get_object_retry_policy (self : Connector) (obj_type : string)
    (payload : option dict) (return_fields : option (list string))
    (extattrs : option (list (string * extattr))) (force_proxy : bool)
    (st st' : session_state) (res : result pyval) :
  get_object self obj_type payload return_fields extattrs force_proxy st
  = (res, st') ->
  (exists new, sent st' = (sent st ++ new)%list /\ (List.length new <= 2)%nat) /\
  (forall url1 r1,
      prepare self (OpGet obj_type payload return_fields extattrs force_proxy)
      = Ok url1 ->
      server (sent st)
        {| method := GET; url := url1;
           opts := _get_request_options self None |}
      = Responded r1 ->
      (status_code r1 <> 200 ->
       sent st'
       = (sent st ++ [{| method := GET; url := url1;
                         opts := _get_request_options self None |}])%list /\
       exists e, res = Raise e) /\
      (forall v1,
          status_code r1 = 200 ->
          loads (content r1) = Some v1 ->
          (truthy v1 = true ->
           sent st'
           = (sent st ++ [{| method := GET; url := url1;
                             opts := _get_request_options self None |}])%list /\
           res = Ok v1) /\
          (truthy v1 = false ->
           cloud_api_enabled self = false \/ force_proxy = true ->
           sent st'
           = (sent st ++ [{| method := GET; url := url1;
                             opts := _get_request_options self None |}])%list /\
           res = Ok PNone) /\
          (truthy v1 = false ->
           cloud_api_enabled self = true -> force_proxy = false ->
           exists url2,
             snd (_construct_url self obj_type
                    (Some (_build_query_params payload return_fields))
                    extattrs true) = Ok url2 /\
             url2
             = urljoin (wapi_url self) (quote obj_type)
                 ++ query_string
                      (dict_set "_proxy_search" (PStr "GM")
                         (_build_query_params payload return_fields))
                      (or_empty extattrs) /\
             sent st'
             = (sent st
                ++ [{| method := GET; url := url1;
                       opts := _get_request_options self None |};
                    {| method := GET; url := url2;
                       opts := _get_request_options self None |}])%list /\
             forall r2 v2,
               server
                 (sent st
                  ++ [{| method := GET; url := url1;
                         opts := _get_request_options self None |}])%list
                 {| method := GET; url := url2;
                    opts := _get_request_options self None |}
               = Responded r2 ->
               status_code r2 = 200 ->
               loads (content r2) = Some v2 ->
               res = Ok (if truthy v2 then v2 else PNone)))).
Proof.
  intros Hrun. rewrite get_object_run in Hrun. cbn [request_of] in Hrun.
  split.
  - destruct (prepare self _) as [u1|e].
    2:{ inversion Hrun; subst. exists []. rewrite app_nil_r. split; simpl; auto. }
    destruct (reply_result _ (server (sent st) _)) as [v1|e1].
    2:{ inversion Hrun; subst. eexists. split; [reflexivity | simpl; lia]. }
    destruct (truthy v1).
    { inversion Hrun; subst. eexists. split; [reflexivity | simpl; lia]. }
    destruct (cloud_api_enabled self && negb force_proxy).
    2:{ inversion Hrun; subst. eexists. split; [reflexivity | simpl; lia]. }
    destruct (proxied_url self _ _ _ _) as [u2|e2]; inversion Hrun; subst.
    + exists [{| method := GET; url := u1;
                 opts := _get_request_options self None |};
              {| method := GET; url := u2;
                 opts := _get_request_options self None |}].
      split; [|simpl; lia]. cbn [after_request sent].
      now rewrite <- app_assoc.
    + eexists. split; [reflexivity | simpl; lia].
  - intros url1 r1 Hprep Hr1. rewrite Hprep, Hr1 in Hrun. split.
    + intros Hcode.
      destruct (reply_result_failure obj_type payload return_fields extattrs
                  force_proxy r1 Hcode) as [e He].
      rewrite He in Hrun. inversion Hrun; subst. split; [reflexivity|].
      now exists e.
    + intros v1 Hcode Hv1.
      rewrite (reply_result_ok _ r1 v1) in Hrun;
        [| cbn [success_status]; now rewrite Hcode | exact Hv1].
      split; [|split].
      * intros Ht. rewrite Ht in Hrun. now inversion Hrun.
      * intros Ht Hno. rewrite Ht in Hrun.
        assert (Hc : cloud_api_enabled self && negb force_proxy = false)
          by (destruct Hno as [-> | ->];
              [reflexivity | apply andb_false_r]).
        rewrite Hc in Hrun. now inversion Hrun.
      * intros Ht Hcloud Hfp. rewrite Ht, Hcloud, Hfp in Hrun.
        cbn [andb negb] in Hrun. unfold proxied_url in Hrun. subst force_proxy.
        destruct (construct_url_cases self obj_type
                    (Some (_build_query_params payload return_fields))
                    extattrs true) as [Hu | [u2 Hu]].
        { exfalso. cbn [prepare] in Hprep.
          rewrite construct_url_eq in Hprep, Hu. cbn [snd] in Hprep, Hu.
          destruct (_validate_obj_type_or_die obj_type false);
            [|discriminate]. cbn [rbind] in Hprep.
          destruct (negb (truthy (PStr obj_type))
                    || starts_with_slash obj_type); discriminate. }
        rewrite Hu in Hrun. inversion Hrun; subst. exists u2.
        split; [exact Hu|]. split.
        { rewrite construct_url_eq in Hu. cbn [snd] in Hu.
          destruct (negb (truthy (PStr obj_type))
                    || starts_with_slash obj_type); now inversion Hu. }
        split.
        -- cbn [after_request sent]. now rewrite <- app_assoc.
        -- intros r2 v2 Hr2 Hcode2 Hv2. rewrite Hr2.
           rewrite (reply_result_ok _ r2 v2);
             [| cbn [success_status]; now rewrite Hcode2 | exact Hv2].
           cbn [or_none]. now destruct (truthy v2).
Qed.

(** ** What a failed create raises *)

(** A reply whose content does not decode, or decodes to an empty
    value, is reported as [InfobloxCannotCreateObject]. *)
Lemma create_rejection_empty_body (obj_type : string) (payload : pyval)
    (r : response) :
  truthy (safe_json_load (content r)) = false ->
  create_rejection obj_type payload r
  = InfobloxCannotCreateObject (safe_json_load (content r)) obj_type
      (content r) payload (status_code r).
Proof. intros H. unfold create_rejection. now rewrite H. Qed.

(** A JSON object with a string under [text] is reported by what the
    text contains. *)
Lemma create_rejection_text (obj_type : string) (payload : pyval)
    (r : response) (kv : string * pyval) (d : dict) (text : string) :
  loads (content r) = Some (PDict (kv :: d)) ->
  dict_get "text" (kv :: d) = Some (PStr text) ->
  create_rejection obj_type payload r
  = if str_in "is assigned to another network view" text
    then InfobloxMemberAlreadyAssigned (PDict (kv :: d)) obj_type
           (content r) payload (status_code r)
    else InfobloxCannotCreateObject (PDict (kv :: d)) obj_type
           (content r) payload (status_code r).
Proof.
  intros Hl Ht. unfold create_rejection, safe_json_load, get_text.
  rewrite Hl. cbn [truthy]. rewrite Ht. reflexivity.
Qed.

(** A non-empty JSON object without [text] is not reported at all: the
    membership test on [None] raises [TypeError]. *)
Lemma create_rejection_without_text (obj_type : string) (payload : pyval)
    (r : response) (kv : string * pyval) (d : dict) :
  loads (content r) = Some (PDict (kv :: d)) ->
  dict_get "text" (kv :: d) = None ->
  create_rejection obj_type payload r = TypeError.
Proof.
  intros Hl Ht. unfold create_rejection, safe_json_load, get_text.
  rewrite Hl. cbn [truthy]. rewrite Ht. reflexivity.
Qed.

(** ** Before the first request *)

Lemma validate_reference_ok (obj_type : string) :
  obj_type <> "" -> _validate_obj_type_or_die obj_type false = Ok tt.
Proof.
  intros Hne. unfold _validate_obj_type_or_die. now rewrite truthy_str.
Qed.

Lemma relative_path_ok (relative_path : string) :
  relative_path <> "" -> (forall rest, relative_path <> String "/" rest) ->
  negb (truthy (PStr relative_path)) || starts_with_slash relative_path = false.
Proof.
  intros Hne Hrel.
  now rewrite truthy_str, (starts_with_slash_false _ Hrel) by assumption.
Qed.

(** On a valid target the preparation gives the first URL. *)
Lemma prepare_valid (self : Connector) (op : operation) :
  valid_target op -> prepare self op = Ok (first_url self op).
Proof.
  intros (Hne & Hrel & Hslash). unfold first_url.
  destruct op as [o p rf ea fp | obj payload rf | f ref payload rf
                 | ref payload rf | ref];
    cbn [prepare op_path op_params op_extattrs] in *;
    rewrite ?construct_url_eq; cbn [snd or_empty];
    rewrite ?(validate_reference_ok _ Hne),
      ?(validate_obj_type_expected_ok _ Hne Hslash);
    cbn [rbind]; now rewrite (relative_path_ok _ Hne Hrel).
Qed.

Lemma validate_type_slash (obj_type : string) :
  contains_slash obj_type ->
  _validate_obj_type_or_die obj_type true
  = Raise (ValueError "NIOS object type cannot contain slash.").
Proof.
  intros [before [after ->]]. unfold _validate_obj_type_or_die.
  rewrite truthy_str, str_in_slash; [reflexivity|].
  destruct before; discriminate.
Qed.

(** On any other target the preparation raises [ValueError]. *)
Lemma prepare_invalid (self : Connector) (op : operation) :
  op_path op = "" \/ (exists rest, op_path op = String "/" rest) \/
  (exists t p f, op = OpCreate t p f /\ contains_slash t) ->
  exists msg, prepare self op = Raise (ValueError msg).
Proof.
  intros H.
  destruct op as [o p rf ea fp | obj payload rf | f ref payload rf
                 | ref payload rf | ref];
    cbn [prepare op_path] in *; rewrite ?construct_url_eq; cbn [snd].
  - destruct (validate_cases o false) as [[msg ->] | ->]; [now eexists|].
    cbn [rbind]. destruct H as [-> | [[rest ->] | (t & p' & f' & Heq & _)]];
      [now eexists | now eexists | discriminate].
  - destruct H as [-> | [[rest ->] | (t & p' & f' & Heq & Hs)]].
    + now eexists.
    + rewrite (validate_type_slash (String "/" rest)); [now eexists|].
      now exists "", rest.
    + injection Heq as <- _ _. rewrite (validate_type_slash _ Hs).
      now eexists.
  - destruct H as [-> | [[rest ->] | (t & p' & f' & Heq & _)]];
      [now eexists | now eexists | discriminate].
  - destruct H as [-> | [[rest ->] | (t & p' & f' & Heq & _)]];
      [now eexists | now eexists | discriminate].
  - destruct H as [-> | [[rest ->] | (t & p' & f' & Heq & _)]];
      [now eexists | now eexists | discriminate].
Qed.

(** ** The shape of a run *)

Lemma prepare_raises_value_error (self : Connector) (op : operation) (e : exn) :
  prepare self op = Raise e -> exists msg, e = ValueError msg.
Proof.
  destruct op; cbn [prepare];
    try (destruct (validate_cases obj_type false) as [[msg ->] | ->]);
    try (destruct (validate_cases obj_type true) as [[msg ->] | ->]);
    cbn [rbind]; try (intros H; inversion H; now eexists);
    match goal with
    | |- snd (_construct_url ?s ?p ?q ?a ?f) = _ -> _ =>
        destruct (construct_url_cases s p q a f) as [-> | [u ->]]
    end; intros H; inversion H; now eexists.
Qed.

(** A run is one of three: the preparation raises and nothing is sent;
    one request is sent and its outcome read; or, for a get on a
    cloud-capable connector without [force_proxy] whose first reply
    reads as an empty result, two requests are sent and the outcome of
    the second is read. *)
Lemma run_cases (self : Connector) (op : operation) (st : session_state) :
  (exists msg,
      prepare self op = Raise (ValueError msg) /\
      run self op st = (Raise (ValueError msg), st))
  \/ (exists u1,
         prepare self op = Ok u1 /\
         run self op st
         = (finish op
              (reply_result op (server (sent st) (request_of self op u1))),
            after_request self st (request_of self op u1)))
  \/ (exists o p rf ea u1 u2 v1,
         op = OpGet o p rf ea false /\
         cloud_api_enabled self = true /\
         prepare self op = Ok u1 /\
         proxied_url self o p rf ea = Ok u2 /\
         reply_result op (server (sent st) (request_of self op u1)) = Ok v1 /\
         truthy v1 = false /\
         run self op st
         = (or_none
              (reply_result op
                 (server (sent st ++ [request_of self op u1])%list
                    (request_of self op u2))),
            after_request self
              (after_request self st (request_of self op u1))
              (request_of self op u2))).
Proof.
  destruct (prepare self op) as [u1|e] eqn:Hprep.
  2:{ left. destruct (prepare_raises_value_error self op e Hprep) as [msg ->].
      exists msg. split; [reflexivity|].
      destruct op;
        [cbn [run]; rewrite get_object_run
        | rewrite run_single by discriminate..];
        now rewrite Hprep. }
  destruct op as [o p rf ea fp | obj payload rf | f ref payload rf
                 | ref payload rf | ref].
  2,3,4,5: right; left; exists u1; split; [reflexivity|];
    rewrite run_single by discriminate; now rewrite Hprep.
  cbn [run]. rewrite get_object_run, Hprep. cbn [finish].
  destruct (reply_result _ (server (sent st) _)) as [v1|e1] eqn:H1.
  2:{ right; left. exists u1. split; [reflexivity|]. now rewrite H1. }
  destruct (truthy v1) eqn:Ht.
  { right; left. exists u1. split; [reflexivity|]. rewrite H1.
    cbn [or_none]. now rewrite Ht. }
  destruct (cloud_api_enabled self && negb fp) eqn:Hc.
  2:{ right; left. exists u1. split; [reflexivity|]. rewrite H1.
      cbn [or_none]. now rewrite Ht. }
  apply andb_prop in Hc as [Hcloud Hfp]. apply negb_true_iff in Hfp. subst fp.
  destruct (proxied_url self o p rf ea) as [u2|e2] eqn:Hu2.
  - right; right. exists o, p, rf, ea, u1, u2, v1. now repeat split.
  - exfalso. unfold proxied_url in Hu2. cbn [prepare] in Hprep.
    rewrite construct_url_eq in Hprep, Hu2. cbn [snd] in Hprep, Hu2.
    destruct (_validate_obj_type_or_die o false); [|discriminate].
    cbn [rbind] in Hprep.
    destruct (negb (truthy (PStr o)) || starts_with_slash o); discriminate.
Qed.

(** What a run adds to the session: the requests it sends, each one an
    operation's request to some URL, no more than the operation's bound,
    and one log record for each. *)
Lemma run_trace (self : Connector) (op : operation) (st : session_state) :
  exists new,
    sent (snd (run self op st)) = (sent st ++ new)%list /\
    logged (snd (run self op st))
    = (logged st ++ map (log_of self) new)%list /\
    (List.length new <= max_requests op)%nat /\
    Forall (fun req => exists u, req = request_of self op u) new.
Proof.
  destruct (run_cases self op st)
    as [(msg & _ & ->)
       | [(u1 & _ & ->)
         | (o & p & rf & ea & u1 & u2 & v1 & -> & _ & _ & _ & _ & _ & ->)]].
  - exists []. cbn [snd map]. rewrite !app_nil_r.
    repeat split; [destruct op; simpl; lia | constructor].
  - exists [request_of self op u1]. cbn [snd after_request sent logged map].
    repeat split; [destruct op; simpl; lia|].
    constructor; [now exists u1 | constructor].
  - exists [request_of self (OpGet o p rf ea false) u1;
            request_of self (OpGet o p rf ea false) u2].
    cbn [snd after_request sent logged map]. rewrite <- !app_assoc.
    repeat split; [simpl; lia|].
    constructor; [now exists u1|]. constructor; [now exists u2 | constructor].
Qed.

Lemma last_outcome_unsent (st st' : session_state) (req : request)
    (o : outcome) :
  sent st' = sent st -> ~ last_outcome st st' req o.
Proof.
  intros Heq (earlier & Hsent & Hlen & _).
  rewrite Heq in Hsent. rewrite Hsent, length_app in Hlen. simpl in Hlen. lia.
Qed.

Lemma last_outcome_one (self : Connector) (st : session_state)
    (req0 req : request) (o : outcome) :
  last_outcome st (after_request self st req0) req o ->
  req = req0 /\ server (sent st) req0 = o.
Proof.
  intros (earlier & Hsent & _ & Hr). cbn [after_request sent] in Hsent.
  apply app_inj_tail in Hsent as [<- <-]. now split.
Qed.

Lemma last_outcome_two (self : Connector) (st : session_state)
    (req1 req2 req : request) (o : outcome) :
  last_outcome st (after_request self (after_request self st req1) req2)
    req o ->
  req = req2 /\ server (sent st ++ [req1])%list req2 = o.
Proof.
  intros (earlier & Hsent & _ & Hr). cbn [after_request sent] in Hsent.
  apply app_inj_tail in Hsent as [<- <-]. now split.
Qed.

(** What a run returns is the executor's reading of the outcome of the
    last request it sent. *)
Lemma run_last_outcome (self : Connector) (op : operation)
    (st st' : session_state) (res : result pyval) (req : request)
    (o : outcome) :
  run self op st = (res, st') ->
  last_outcome st st' req o ->
  res = finish op (reply_result op o).
Proof.
  intros Hrun Hlast.
  destruct (run_cases self op st)
    as [(msg & _ & H)
       | [(u1 & _ & H)
         | (t & p & rf & ea & u1 & u2 & v1 & -> & _ & _ & _ & _ & _ & H)]];
    rewrite H in Hrun; inversion Hrun; subst; clear Hrun.
  - now destruct (last_outcome_unsent st' st' req o eq_refl).
  - apply last_outcome_one in Hlast as [_ <-]. reflexivity.
  - apply last_outcome_two in Hlast as [_ <-]. reflexivity.
Qed.

(** The executor never reads an outcome as an exception of the
    transport. *)
Lemma reply_result_not_transport (op : operation) (o : outcome) (e : exn) :
  finish op (reply_result op o) = Raise e ->
  (forall i, e <> ReqTimeout i) /\ (forall i, e <> ReqRequestException i).
Proof.
  assert (Hres : reply_result op o = Raise e ->
                 (forall i, e <> ReqTimeout i)
                 /\ (forall i, e <> ReqRequestException i)).
  { unfold reply_result, _parse_reply, create_rejection, get_text,
      str_in_value.
    destruct o as [r|i|i]; [|intros H; inversion H; split; discriminate..].
    destruct (status_code r =? 401);
      [intros H; inversion H; split; discriminate|].
    destruct (success_status op (status_code r)).
    - destruct (loads (content r)); intros H; inversion H; split; discriminate.
    - destruct op; cbn [rejection];
        try (destruct (loads (content r)); intros H; inversion H;
             split; discriminate).
      destruct (safe_json_load (content r)) as [|b|z|s0|l|d]; cbn [truthy];
        try (intros H; inversion H; split; discriminate).
      + destruct b; intros H; inversion H; split; discriminate.
      + destruct (negb (z =? 0)); intros H; inversion H; split; discriminate.
      + destruct (negb (s0 =? "")%string); intros H; inversion H;
          split; discriminate.
      + destruct l; intros H; inversion H; split; discriminate.
      + destruct d as [|kv d]; [intros H; inversion H; split; discriminate|].
        destruct (dict_get "text" (kv :: d)) as [[|b|z|s0|l|d']|];
          try (intros H; inversion H; split; discriminate).
        * destruct (str_in _ s0); intros H; inversion H; split; discriminate.
        * destruct (existsb _ l); intros H; inversion H; split; discriminate.
        * destruct (dict_mem _ d'); intros H; inversion H; split; discriminate. }
  destruct op; cbn [finish]; try exact Hres.
  unfold or_none. destruct (reply_result _ o) as [v|e'].
  - destruct (truthy v); discriminate.
  - exact Hres.
Qed.

(** ** Failures of the transport *)

(** Whichever operation runs, when the last request it sent timed out
    it raises [InfobloxTimeoutError] with the timeout, and when the
    transport failed in another way it raises [InfobloxConnectionError]
    with that failure as its reason. *)
Theorem transport_failure_is_remapped (self : Connector) (op : operation)
    (st st' : session_state) (res : result pyval) (req : request) :
  run self op st = (res, st') ->
  (forall e,
      last_outcome st st' req (TimedOut e) ->
      res = Raise (InfobloxTimeoutError e)) /\
  (forall e,
      last_outcome st st' req (Failed e) ->
      res = Raise (InfobloxConnectionError (ReasonRequestException e))).
Proof.
  intros Hrun. split; intros e Hlast;
    rewrite (run_last_outcome self op st st' res req _ Hrun Hlast);
    cbn [reply_result]; apply finish_raise.
Qed.

(** No operation lets an exception of [requests] through: neither a
    [Timeout] nor another [RequestException] is what a run raises. *)
Theorem no_transport_exception_escapes (self : Connector) (op : operation)
    (st : session_state) (e : transport_info) :
  fst (run self op st) <> Raise (ReqTimeout e) /\
  fst (run self op st) <> Raise (ReqRequestException e).
Proof.
  assert (H : forall x,
             fst (run self op st) = Raise x ->
             (forall i, x <> ReqTimeout i)
             /\ (forall i, x <> ReqRequestException i)).
  { intros x.
    destruct (run_cases self op st)
      as [(msg & _ & ->)
         | [(u1 & _ & ->)
           | (t & p & rf & ea & u1 & u2 & v1 & -> & _ & _ & _ & _ & _ & ->)]];
      cbn [fst].
    - intros Hx; inversion Hx; split; discriminate.
    - apply reply_result_not_transport.
    - apply (reply_result_not_transport (OpGet t p rf ea false)). }
  split; intros Heq; destruct (H _ Heq) as [H1 H2];
    [now apply (H1 e) | now apply (H2 e)].
Qed.

(** ** What a run sends *)

(** An operation called on an empty path, on a path that starts with a
    slash, or, for a create, on a type that contains a slash, raises
    [ValueError] and leaves the session as it was: nothing is sent and
    nothing is logged. *)
Theorem invalid_target_sends_nothing (self : Connector) (op : operation)
    (st : session_state) :
  op_path op = "" \/ (exists rest, op_path op = String "/" rest) \/
  (exists t p f, op = OpCreate t p f /\ contains_slash t) ->
  exists msg, run self op st = (Raise (ValueError msg), st).
Proof.
  intros H. destruct (prepare_invalid self op H) as [msg Hprep].
  destruct (run_cases self op st)
    as [(msg' & Hp & Hrun)
       | [(u1 & Hp & _)
         | (t & p & rf & ea & u1 & u2 & v1 & _ & _ & Hp & _)]];
    rewrite Hprep in Hp; inversion Hp; subst.
  now exists msg'.
Qed.

(** On a valid target every operation sends its first request, with
    its method, to the base URL joined with the quoted path and followed
    by the query string of the operation's parameters; the requests of
    one run are no more than two for a get and one for any other
    operation. *)
Theorem valid_target_sends_first_request (self : Connector) (op : operation)
    (st : session_state) :
  valid_target op ->
  exists req more,
    sent (snd (run self op st)) = (sent st ++ req :: more)%list /\
    method req = op_method op /\
    url req = first_url self op /\
    (List.length (req :: more) <= max_requests op)%nat.
Proof.
  intros Hvalid. pose proof (prepare_valid self op Hvalid) as Hprep.
  destruct (run_cases self op st)
    as [(msg & Hp & _)
       | [(u1 & Hp & Hrun)
         | (t & p & rf & ea & u1 & u2 & v1 & Hop & _ & Hp & _ & _ & _ & Hrun)]];
    rewrite Hprep in Hp; inversion Hp; subst u1; rewrite Hrun; cbn [snd].
  - exists (request_of self op (first_url self op)), [].
    cbn [after_request sent].
    split; [reflexivity|]. split; [now destruct op|].
    split; [now destruct op|]. destruct op; simpl; lia.
  - subst op. eexists _, [_]. cbn [after_request sent].
    rewrite <- app_assoc. split; [reflexivity|].
    split; [reflexivity|]. split; [reflexivity|]. simpl. lia.
Qed.

(** Every request a run sends carries the method of the operation, the
    connector's TLS flag and timeout, the JSON content-type header and
    nothing else, and as body the serialized payload of a create, call or
    update whose payload is not empty; a get and a delete never send a
    body. *)
Theorem requests_carry_connector_options (self : Connector) (op : operation)
    (st : session_state) :
  exists new,
    sent (snd (run self op st)) = (sent st ++ new)%list /\
    Forall (fun req =>
              method req = op_method op /\
              verify (opts req) = ssl_verify self /\
              timeout (opts req) = http_request_timeout self /\
              headers (opts req) = [("Content-type", "application/json")] /\
              data (opts req) = op_body op) new.
Proof.
  destruct (run_trace self op st) as (new & Hsent & _ & _ & Hnew).
  exists new. split; [exact Hsent|].
  apply (Forall_impl _ (P := fun req => exists u, req = request_of self op u));
    [|exact Hnew].
  intros req [u ->]. destruct op; now repeat split.
Qed.

(** One record is logged for each request a run sends, in the order of
    the requests, with the URL and the options of the request, at level
    info when [log_api_calls_as_info] is set and at level debug when it
    is not. *)
Theorem one_log_record_per_request (self : Connector) (op : operation)
    (st : session_state) :
  exists new,
    sent (snd (run self op st)) = (sent st ++ new)%list /\
    logged (snd (run self op st))
    = (logged st
       ++ map (fun req =>
                 {| level := if truthy (log_api_calls_as_info self)
                             then INFO else DEBUG;
                    log_url := url req;
                    log_opts := opts req |}) new)%list.
Proof.
  destruct (run_trace self op st) as (new & Hsent & Hlog & _).
  exists new. now split.
Qed.

(** ** What a run returns *)

(** Whichever operation runs, when the last reply it received has the
    operation's success status and a content that is JSON, a create,
    call, update or delete returns the decoded content, whatever it is,
    and a get returns it when it is not empty and [None] when it is. *)
Theorem success_returns_decoded_content (self : Connector) (op : operation)
    (st st' : session_state) (res : result pyval) (req : request)
    (r : response) (v : pyval) :
  run self op st = (res, st') ->
  last_reply st st' req r ->
  success_status op (status_code r) = true ->
  loads (content r) = Some v ->
  res = match op with
        | OpGet _ _ _ _ _ => Ok (if truthy v then v else PNone)
        | _ => Ok v
        end.
Proof.
  intros Hrun Hlast Hcode Hv.
  rewrite (run_last_reply self op st st' res req r Hrun Hlast).
  rewrite (reply_result_ok op r v Hcode Hv).
  destruct op; cbn [finish or_none]; try reflexivity.
  now destruct (truthy v).
Qed.

(** What a get returns is [None] or a value that is not empty: never an
    empty list, an empty object, an empty string, zero or false. *)
Theorem get_returns_none_or_non_empty (self : Connector) (obj_type : string)
    (payload : option dict) (return_fields : option (list string))
    (extattrs : option (list (string * extattr))) (force_proxy : bool)
    (st : session_state) (v : pyval) :
  fst (get_object self obj_type payload return_fields extattrs force_proxy st)
  = Ok v ->
  v = PNone \/ truthy v = true.
Proof.
  assert (Hnone : forall r, or_none r = Ok v -> v = PNone \/ truthy v = true).
  { intros [w|e]; cbn [or_none]; [|discriminate].
    destruct (truthy w) eqn:Hw; intros H; inversion H; subst; auto. }
  change (get_object self obj_type payload return_fields extattrs force_proxy)
    with (run self
            (OpGet obj_type payload return_fields extattrs force_proxy)).
  destruct (run_cases self
              (OpGet obj_type payload return_fields extattrs force_proxy) st)
    as [(msg & _ & ->)
       | [(u1 & _ & ->)
         | (t & p & rf & ea & u1 & u2 & v1 & _ & _ & _ & _ & _ & _ & ->)]];
    cbn [fst finish]; [discriminate | apply Hnone..].
Qed.

(** ** The proxy flag of a get *)

(** On a connector that is not cloud-capable the [force_proxy] of the
    caller changes nothing: the run with it is the run without it, and
    it sends at most one request. *)
Theorem force_proxy_ignored_without_cloud (self : Connector)
    (obj_type : string) (payload : option dict)
    (return_fields : option (list string))
    (extattrs : option (list (string * extattr))) (force_proxy : bool)
    (st : session_state) :
  cloud_api_enabled self = false ->
  get_object self obj_type payload return_fields extattrs force_proxy st
  = get_object self obj_type payload return_fields extattrs false st /\
  exists new,
    sent (snd (get_object self obj_type payload return_fields extattrs
                 force_proxy st))
    = (sent st ++ new)%list /\
    (List.length new <= 1)%nat.
Proof.
  intros Hcloud. split.
  - unfold get_object. rewrite Hcloud. reflexivity.
  - change (get_object self obj_type payload return_fields extattrs
              force_proxy)
      with (run self
              (OpGet obj_type payload return_fields extattrs force_proxy)).
    destruct (run_cases self
                (OpGet obj_type payload return_fields extattrs force_proxy) st)
      as [(msg & _ & ->)
         | [(u1 & _ & ->)
           | (t & p & rf & ea & u1 & u2 & v1 & _ & Hc & _)]];
      cbn [snd after_request sent].
    + exists []. rewrite app_nil_r. split; [reflexivity | simpl; lia].
    + eexists [_]. split; [reflexivity | simpl; lia].
    + congruence.
Qed.

(** On a cloud-capable connector a get with [force_proxy] on a valid
    object type sends exactly one request, whatever the reply, and the
    parameters encoded into its URL hold [_proxy_search=GM]. *)
Theorem forced_proxy_sends_one_request (self : Connector)
    (obj_type : string) (payload : option dict)
    (return_fields : option (list string))
    (extattrs : option (list (string * extattr))) (st : session_state) :
  cloud_api_enabled self = true ->
  obj_type <> "" -> (forall rest, obj_type <> String "/" rest) ->
  sent (snd (get_object self obj_type payload return_fields extattrs true st))
  = (sent st
     ++ [{| method := GET;
            url := urljoin (wapi_url self) (quote obj_type)
                   ++ query_string
                        (dict_set "_proxy_search" (PStr "GM")
                           (_build_query_params payload return_fields))
                        (or_empty extattrs);
            opts := _get_request_options self None |}])%list /\
  dict_get "_proxy_search"
    (dict_set "_proxy_search" (PStr "GM")
       (_build_query_params payload return_fields))
  = Some (PStr "GM").
Proof.
  intros Hcloud Hne Hrel. split; [|apply dict_get_set_same].
  assert (Hvalid : valid_target
                     (OpGet obj_type payload return_fields extattrs true))
    by (now repeat split).
  pose proof (prepare_valid self _ Hvalid) as Hprep.
  unfold first_url in Hprep. cbn [op_path op_params op_extattrs] in Hprep.
  rewrite Hcloud in Hprep. cbn [andb proxied_params] in Hprep.
  change (get_object self obj_type payload return_fields extattrs true)
    with (run self (OpGet obj_type payload return_fields extattrs true)).
  destruct (run_cases self
              (OpGet obj_type payload return_fields extattrs true) st)
    as [(msg & Hp & _)
       | [(u1 & Hp & ->)
         | (t & p & rf & ea & u1 & u2 & v1 & Hop & _)]].
  - rewrite Hprep in Hp. discriminate.
  - rewrite Hprep in Hp. inversion Hp; subst u1. reflexivity.
  - discriminate.
Qed.

(** ** The URLs of delete and call *)

Lemma append_empty_r (s : string) : s ++ "" = s.
Proof. induction s as [|c s IH]; simpl; [reflexivity | now rewrite IH]. Qed.

Lemma dict_set_not_empty (k : string) (v : pyval) (d : dict) :
  dict_set k v d <> [].
Proof.
  destruct d as [|[k' v'] d]; simpl; [discriminate|].
  destruct (k =? k')%string; discriminate.
Qed.

(** A delete of a valid reference sends exactly one DELETE request, to
    the base URL joined with the quoted reference, without a query string
    and without a body. *)
Theorem delete_request (self : Connector) (ref : string)
    (st : session_state) :
  ref <> "" -> (forall rest, ref <> String "/" rest) ->
  sent (snd (delete_object self ref st))
  = (sent st
     ++ [{| method := DELETE;
            url := urljoin (wapi_url self) (quote ref);
            opts := {| verify := ssl_verify self;
                       timeout := http_request_timeout self;
                       headers := DEFAULT_HEADER;
                       data := None |} |}])%list.
Proof.
  intros Hne Hrel.
  assert (Hvalid : valid_target (OpDelete ref)) by (now repeat split).
  pose proof (prepare_valid self _ Hvalid) as Hprep.
  unfold first_url in Hprep.
  cbn [op_path op_params op_extattrs query_string] in Hprep.
  rewrite append_empty_r in Hprep.
  change (delete_object self ref) with (run self (OpDelete ref)).
  rewrite run_single by discriminate. now rewrite Hprep.
Qed.

(** A call of a function on a valid reference sends exactly one POST
    request, to the base URL joined with the quoted reference and
    followed by a query string that is never empty: its parameters hold
    the name of the function under [_function]. *)
Theorem call_func_request (self : Connector) (func_name ref : string)
    (payload : pyval) (return_fields : option (list string))
    (st : session_state) :
  ref <> "" -> (forall rest, ref <> String "/" rest) ->
  sent (snd (call_func self func_name ref payload return_fields st))
  = (sent st
     ++ [{| method := POST;
            url := urljoin (wapi_url self) (quote ref) ++ "?"
                   ++ urlencode
                        (dict_set "_function" (PStr func_name)
                           (_build_query_params None return_fields));
            opts := _get_request_options self (Some payload) |}])%list /\
  dict_get "_function"
    (dict_set "_function" (PStr func_name)
       (_build_query_params None return_fields))
  = Some (PStr func_name).
Proof.
  intros Hne Hrel. split; [|apply dict_get_set_same].
  assert (Hvalid : valid_target
                     (OpCall func_name ref payload return_fields))
    by (now repeat split).
  pose proof (prepare_valid self _ Hvalid) as Hprep.
  unfold first_url in Hprep.
  cbn [op_path op_params op_extattrs] in Hprep.
  pose proof (dict_set_not_empty "_function" (PStr func_name)
                (_build_query_params None return_fields)) as Hset.
  destruct (dict_set "_function" (PStr func_name)
              (_build_query_params None return_fields)) as [|kv d] eqn:E;
    [congruence|].
  cbn [query_string] in Hprep.
  change (call_func self func_name ref payload return_fields)
    with (run self (OpCall func_name ref payload return_fields)).
  rewrite run_single by discriminate. rewrite Hprep. cbn [snd request_of].
  reflexivity.
Qed.

(** ** The query parameters *)

(** [_build_query_params] keeps every entry of the payload, puts the
    return fields joined by commas under [_return_fields] when there are
    any, and is the payload itself when there are none; without a
    payload it starts from the empty dict. *)
Theorem build_query_params_lookup (payload : option dict)
    (return_fields : option (list string)) :
  (forall k,
      k <> "_return_fields" ->
      dict_get k (_build_query_params payload return_fields)
      = dict_get k (or_empty payload)) /\
  (forall f fs,
      return_fields = Some (f :: fs) ->
      dict_get "_return_fields" (_build_query_params payload return_fields)
      = Some (PStr (String.concat "," (f :: fs)))) /\
  (return_fields = None \/ return_fields = Some [] ->
   _build_query_params payload return_fields = or_empty payload).
Proof.
  assert (Hp : match payload with
               | Some (p :: ps) => p :: ps
               | _ => []
               end = or_empty payload)
    by (destruct payload as [[|p ps]|]; reflexivity).
  unfold _build_query_params. rewrite Hp. split; [|split].
  - intros k Hk. destruct return_fields as [[|f fs]|]; try reflexivity.
    now apply dict_get_set_other.
  - intros f fs ->. apply dict_get_set_same.
  - intros [-> | ->]; reflexivity.
Qed.

(** ** A failed create, by the body of the reply *)

(** When the last reply to a create has a status that is neither 401
    nor 201: a content that is not JSON, or that is the empty JSON
    object, raises [InfobloxCannotCreateObject]; a JSON object with a
    string under [text] raises [InfobloxMemberAlreadyAssigned] when the
    text contains the phrase of the other network view and
    [InfobloxCannotCreateObject] when it does not; each carries the
    parsed body or [None], the object type, the raw content, the payload
    and the status. *)
Theorem create_failure_by_body (self : Connector) (obj_type : string)
    (payload : pyval) (return_fields : option (list string))
    (st st' : session_state) (res : result pyval) (req : request)
    (r : response) :
  create_object self obj_type payload return_fields st = (res, st') ->
  last_reply st st' req r ->
  status_code r <> 401 -> status_code r <> 201 ->
  (loads (content r) = None ->
   res = Raise (InfobloxCannotCreateObject PNone obj_type (content r)
                  payload (status_code r))) /\
  (loads (content r) = Some (PDict []) ->
   res = Raise (InfobloxCannotCreateObject (PDict []) obj_type (content r)
                  payload (status_code r))) /\
  (forall kv d text,
      loads (content r) = Some (PDict (kv :: d)) ->
      dict_get "text" (kv :: d) = Some (PStr text) ->
      res = Raise
              (if str_in "is assigned to another network view" text
               then InfobloxMemberAlreadyAssigned (PDict (kv :: d)) obj_type
                      (content r) payload (status_code r)
               else InfobloxCannotCreateObject (PDict (kv :: d)) obj_type
                      (content r) payload (status_code r))).
Proof.
  intros Hrun Hlast H401 H201.
  change (create_object self obj_type payload return_fields)
    with (run self (OpCreate obj_type payload return_fields)) in Hrun.
  rewrite (run_last_reply self _ st st' res req r Hrun Hlast).
  cbn [finish reply_result success_status].
  apply Z.eqb_neq in H401, H201. rewrite H401, H201.
  split; [|split].
  - intros Hl. rewrite create_rejection_empty_body;
      unfold safe_json_load; now rewrite Hl.
  - intros Hl. rewrite create_rejection_empty_body;
      unfold safe_json_load; now rewrite Hl.
  - intros kv d text Hl Ht.
    now rewrite (create_rejection_text obj_type payload r kv d text Hl Ht).
Qed.

(** A second request is sent only after a first reply that is a 200
    whose content decodes to an empty value, on a cloud-capable connector
    and without [force_proxy]: never after an error status, a failure of
    the transport, a content that is not JSON or a result that is not
    empty. *)
Theorem retry_only_after_empty_success (self : Connector) (obj_type : string)
    (payload : option dict) (return_fields : option (list string))
    (extattrs : option (list (string * extattr))) (force_proxy : bool)
    (st : session_state) (req1 req2 : request) :
  sent (snd (get_object self obj_type payload return_fields extattrs
               force_proxy st))
  = (sent st ++ [req1; req2])%list ->
  cloud_api_enabled self = true /\ force_proxy = false /\
  exists r1 v1,
    server (sent st) req1 = Responded r1 /\
    status_code r1 = 200 /\
    loads (content r1) = Some v1 /\
    truthy v1 = false.
Proof.
  change (get_object self obj_type payload return_fields extattrs force_proxy)
    with (run self
            (OpGet obj_type payload return_fields extattrs force_proxy)).
  destruct (run_cases self
              (OpGet obj_type payload return_fields extattrs force_proxy) st)
    as [(msg & _ & ->)
       | [(u1 & _ & ->)
         | (t & p & rf & ea & u1 & u2 & v1 & Hop & Hc & _ & _ & H1 & Ht & ->)]];
    cbn [snd after_request sent]; intros Hsent.
  - apply (f_equal (@List.length request)) in Hsent.
    rewrite length_app in Hsent. simpl in Hsent. lia.
  - apply (f_equal (@List.length request)) in Hsent.
    rewrite !length_app in Hsent. simpl in Hsent. lia.
  - injection Hop as <- <- <- <- ->.
    rewrite <- app_assoc in Hsent. apply app_inv_head in Hsent.
    injection Hsent as <- <-.
    split; [exact Hc|]. split; [reflexivity|].
    revert H1. cbn [request_of].
    destruct (server (sent st) _) as [r1|e|e];
      cbn [reply_result success_status]; [|discriminate..].
    destruct (status_code r1 =? 401); [discriminate|].
    destruct (status_code r1 =? 200) eqn:E200.
    + unfold _parse_reply.
      destruct (loads (content r1)) as [w|] eqn:Hl; [|discriminate].
      intros H. inversion H; subst w. exists r1, v1.
      apply Z.eqb_eq in E200. now repeat split.
    + cbn [rejection]. destruct (loads (content r1)); discriminate.
Qed.

(** ** Construction, beyond the configuration errors *)

Lemma is_cloud_wapi_invalid (v : pyval) :
  is_string v = false \/ v = PStr "" ->
  is_cloud_wapi v = Raise (ValueError "Invalid argument was passed").
Proof.
  intros [Hv | ->]; [|reflexivity].
  unfold is_cloud_wapi. now rewrite Hv, andb_false_r.
Qed.

(** When every option is defined and none of the required ones is
    blank, a version that is not a string or is the empty string makes
    construction raise the [ValueError] of [is_cloud_wapi], not a
    configuration error. *)
Theorem parse_options_invalid_version (options : options_source) (v : pyval) :
  find (undefined_option options) attributes = None ->
  find (blank_option options) ["host"; "username"; "password"] = None ->
  resolved options "wapi_version" = Some v ->
  is_string v = false \/ v = PStr "" ->
  _parse_options options = Raise (ValueError "Invalid argument was passed").
Proof.
  intros Hu Hb Hw Hbad. unfold _parse_options.
  destruct (copy_options_defined options attributes [] Hu) as [self0 Hc].
  rewrite Hc. cbn [rbind].
  rewrite (check_not_blank_ok options self0); [| |exact Hb].
  2:{ intros a Ha. apply (copied_resolved options self0 Hc).
      required_in_attributes Ha. }
  cbn [rbind].
  rewrite !(getattr_copied options self0 _ Hc) by in_attributes.
  rewrite Hw.
  destruct (copied_resolved options self0 Hc "host") as (vh & _ & ->);
    [in_attributes|].
  destruct (copied_resolved options self0 Hc "username") as (vu & _ & ->);
    [in_attributes|].
  destruct (copied_resolved options self0 Hc "password") as (vp & _ & ->);
    [in_attributes|].
  destruct (copied_resolved options self0 Hc "ssl_verify") as (vs & _ & ->);
    [in_attributes|].
  destruct (copied_resolved options self0 Hc "http_request_timeout")
    as (vt & _ & ->); [in_attributes|].
  destruct (copied_resolved options self0 Hc "http_pool_connections")
    as (vc & _ & ->); [in_attributes|].
  destruct (copied_resolved options self0 Hc "http_pool_maxsize")
    as (vm & _ & ->); [in_attributes|].
  destruct (copied_resolved options self0 Hc "silent_ssl_warnings")
    as (vsw & _ & ->); [in_attributes|].
  destruct (copied_resolved options self0 Hc "log_api_calls_as_info")
    as (vl & _ & ->); [in_attributes|].
  cbn [rbind]. now rewrite (is_cloud_wapi_invalid v Hbad).
Qed.

(** The session of a constructed connector is bound to the resolved
    options: the credentials are the resolved username and password, the
    TLS flag and the pool sizes are the resolved ones, the pooled adapter
    is mounted for both schemes, and the warnings are silenced exactly
    when [silent_ssl_warnings] resolves to a true value, whatever
    [ssl_verify] is; the cloud flag of the connector is what
    [is_cloud_wapi] says of the resolved version. *)
Theorem init_binds_session (options : options_source) (self : Connector)
    (session : Session) :
  __init__ options = Ok (self, session) ->
  resolved options "username" = Some (fst (auth session)) /\
  resolved options "password" = Some (snd (auth session)) /\
  resolved options "ssl_verify" = Some (session_verify session) /\
  resolved options "http_pool_connections" = Some (pool_connections session) /\
  resolved options "http_pool_maxsize" = Some (pool_maxsize session) /\
  mounted session = ["http://"; "https://"] /\
  (exists v, resolved options "silent_ssl_warnings" = Some v /\
             warnings_disabled session = truthy v) /\
  (exists v, resolved options "wapi_version" = Some v /\
             is_cloud_wapi v = Ok (cloud_api_enabled self)).
Proof.
  unfold __init__.
  destruct (_parse_options options) as [c|e] eqn:Hp; [|discriminate].
  cbn [rbind]. intros H. inversion H; subst; clear H.
  destruct (parse_options_inv options self Hp) as (Hattr & _ & Hcloud).
  cbn [_configure_session auth fst snd session_verify pool_connections
       pool_maxsize mounted warnings_disabled].
  repeat split.
  - symmetry. apply (Hattr "username"). in_attributes.
  - symmetry. apply (Hattr "password"). in_attributes.
  - symmetry. apply (Hattr "ssl_verify"). in_attributes.
  - symmetry. apply (Hattr "http_pool_connections"). in_attributes.
  - symmetry. apply (Hattr "http_pool_maxsize"). in_attributes.
  - exists (silent_ssl_warnings self). split; [|reflexivity].
    symmetry. apply (Hattr "silent_ssl_warnings"). in_attributes.
  - exists (wapi_version self). split; [|exact Hcloud].
    symmetry. apply (Hattr "wapi_version"). in_attributes.
Qed.

(** ** The validator and the version gate, exactly *)

(** The validator passes a reference exactly when it is not empty, and
    a type exactly when it is not empty and holds no slash. *)
Theorem validate_obj_type_or_die_iff (obj_type : string) :
  (_validate_obj_type_or_die obj_type false = Ok tt <-> obj_type <> "") /\
  (_validate_obj_type_or_die obj_type true = Ok tt <->
   obj_type <> "" /\ ~ contains_slash obj_type).
Proof.
  split; split.
  - intros H ->. discriminate H.
  - apply validate_reference_ok.
  - intros H. split.
    + intros ->. discriminate H.
    + intros Hs. rewrite (validate_type_slash _ Hs) in H. discriminate H.
  - intros [Hne Hs]. now apply validate_obj_type_expected_ok.
Qed.

(** [is_cloud_wapi] raises exactly on an argument that is not a string
    or is the empty string: on a non-empty string it always answers,
    whatever the string holds. *)
Theorem is_cloud_wapi_raises_iff (v : pyval) :
  (exists e, is_cloud_wapi v = Raise e) <->
  is_string v = false \/ v = PStr "".
Proof.
  split.
  - intros [e H]. destruct v as [|b|z|s|l|d]; try (left; reflexivity).
    right. destruct s as [|c s]; [reflexivity|]. exfalso.
    unfold is_cloud_wapi in H. cbn [truthy is_string andb negb] in H.
    change ((String c s =? "")%string) with false in H. cbn [negb] in H.
    destruct (re_search_version (String c s)) as [[major minor]|];
      [destruct (CLOUD_WAPI_MAJOR_VERSION <=? int_of_digits major)|];
      discriminate H.
  - intros H. eexists. now apply is_cloud_wapi_invalid.
Qed.

(** ** Version strings written from numbers *)

Lemma all_digits_string_of_uint (d : Decimal.uint) :
  all_digits (DecimalString.NilEmpty.string_of_uint d) = true.
Proof. induction d; simpl; auto. Qed.

Lemma int_of_digits_from_uint (d : Decimal.uint) :
  forall acc,
    int_of_digits_from (Z.of_nat acc) (DecimalString.NilEmpty.string_of_uint d)
    = Z.of_nat (Nat.of_uint_acc d acc).
Proof.
  induction d; intros acc; cbn [DecimalString.NilEmpty.string_of_uint
                                 int_of_digits_from Nat.of_uint_acc];
    [reflexivity|..];
    rewrite <- IHd; f_equal; rewrite Nat.tail_mul_spec;
    unfold digit_value; cbn [nat_of_ascii]; simpl Z.of_nat; lia.
Qed.

Lemma decimal_not_empty (n : nat) : decimal n <> "".
Proof.
  unfold decimal.
  rewrite <- (DecimalNat.Unsigned.of_to n) at 1.
  rewrite DecimalNat.Unsigned.to_of.
  unfold Decimal.unorm.
  destruct (Decimal.nzhead (Nat.to_uint n)); discriminate.
Qed.

Lemma int_of_digits_decimal (n : nat) :
  int_of_digits (decimal n) = Z.of_nat n.
Proof.
  unfold int_of_digits, decimal.
  exact (eq_trans (int_of_digits_from_uint (Nat.to_uint n) 0)
           (f_equal Z.of_nat (DecimalNat.Unsigned.of_to n))).
Qed.

(** The version string written from a major and a minor number is
    cloud-capable exactly when the major number is at least 2. *)
Theorem is_cloud_wapi_of_numbers (major minor : nat) :
  is_cloud_wapi (PStr (decimal major ++ "." ++ decimal minor))
  = Ok (2 <=? Z.of_nat major).
Proof.
  destruct (match_version_here_complete (decimal major) (decimal minor) ""
              (decimal_not_empty major) (decimal_not_empty minor)
              (all_digits_string_of_uint _) (all_digits_string_of_uint _))
    as [g2 E].
  rewrite append_empty_r in E. apply re_search_version_here in E.
  unfold is_cloud_wapi. rewrite truthy_str.
  - cbn [is_string andb negb]. rewrite E, int_of_digits_decimal.
    unfold CLOUD_WAPI_MAJOR_VERSION. now destruct (2 <=? Z.of_nat major).
  - pose proof (decimal_not_empty major).
    destruct (decimal major); [congruence | discriminate].
Qed.

(** ** Status dispatch, by what the appliance answers *)

Lemma first_request_eq (self : Connector) (op : operation) :
  first_request self op = request_of self op (first_url self op).
Proof. destruct op; reflexivity. Qed.

(** On a valid target, when the executor reads the outcome of the
    first request as an exception, the run raises it after that one
    request. *)
Lemma run_first_raises (self : Connector) (op : operation)
    (st : session_state) (e : exn) :
  valid_target op ->
  reply_result op (server (sent st) (first_request self op)) = Raise e ->
  run self op st = (Raise e, after_request self st (first_request self op)).
Proof.
  intros Hvalid Hres. rewrite first_request_eq in *.
  pose proof (prepare_valid self op Hvalid) as Hprep.
  destruct op as [o p rf ea fp | obj payload rf | f ref payload rf
                 | ref payload rf | ref].
  - cbn [run]. rewrite get_object_run, Hprep, Hres. reflexivity.
  - rewrite run_single by discriminate. now rewrite Hprep, Hres.
  - rewrite run_single by discriminate. now rewrite Hprep, Hres.
  - rewrite run_single by discriminate. now rewrite Hprep, Hres.
  - rewrite run_single by discriminate. now rewrite Hprep, Hres.
Qed.

(** A get on a cloud-capable connector, without [force_proxy], whose
    first reply is a 200 with an empty result: the run sends the proxied
    request and returns the executor's reading of its outcome. *)
Lemma run_second_reads (self : Connector) (obj_type : string)
    (payload : option dict) (return_fields : option (list string))
    (extattrs : option (list (string * extattr))) (st : session_state)
    (r1 : response) (v1 : pyval) :
  valid_target (OpGet obj_type payload return_fields extattrs false) ->
  cloud_api_enabled self = true ->
  server (sent st)
    (first_request self (OpGet obj_type payload return_fields extattrs false))
  = Responded r1 ->
  status_code r1 = 200 ->
  loads (content r1) = Some v1 ->
  truthy v1 = false ->
  run self (OpGet obj_type payload return_fields extattrs false) st
  = (or_none
       (reply_result (OpGet obj_type payload return_fields extattrs false)
          (server
             (sent st
              ++ [first_request self
                    (OpGet obj_type payload return_fields extattrs false)])%list
             (proxied_request self obj_type payload return_fields extattrs))),
     after_request self
       (after_request self st
          (first_request self
             (OpGet obj_type payload return_fields extattrs false)))
       (proxied_request self obj_type payload return_fields extattrs)).
Proof.
  intros Hvalid Hcloud Hr1 Hcode Hv1 Ht. rewrite first_request_eq in *.
  pose proof (prepare_valid self _ Hvalid) as Hprep.
  destruct Hvalid as (Hne & Hrel & _). cbn [op_path] in Hne, Hrel.
  cbn [run]. rewrite get_object_run, Hprep, Hr1.
  rewrite (reply_result_ok _ r1 v1);
    [| cbn [success_status]; now rewrite Hcode | exact Hv1].
  rewrite Ht, Hcloud. cbn [andb negb]. unfold proxied_url.
  rewrite construct_url_eq. cbn [snd or_empty proxied_params].
  now rewrite (relative_path_ok _ Hne Hrel).
Qed.

(** C6: on a valid target, whichever operation runs, when the appliance
    answers the operation's request with status 401 the operation raises
    the credential error after that one request, whatever the content of
    the reply and whatever status the operation was after; and when a
    get on a cloud-capable connector has had an empty first result and
    the appliance answers the proxied second request with status 401,
    the get raises the credential error as well. *)
Theorem unauthorized_raises_auth_error (self : Connector) (op : operation)
    (st : session_state) :
  valid_target op ->
  (forall r,
      server (sent st) (first_request self op) = Responded r ->
      status_code r = 401 ->
      fst (run self op st) = Raise (InfobloxBadWAPICredential "") /\
      sent (snd (run self op st))
      = (sent st ++ [first_request self op])%list) /\
  (forall obj_type payload return_fields extattrs r1 v1 r2,
      op = OpGet obj_type payload return_fields extattrs false ->
      cloud_api_enabled self = true ->
      server (sent st) (first_request self op) = Responded r1 ->
      status_code r1 = 200 ->
      loads (content r1) = Some v1 ->
      truthy v1 = false ->
      server (sent st ++ [first_request self op])%list
        (proxied_request self obj_type payload return_fields extattrs)
      = Responded r2 ->
      status_code r2 = 401 ->
      fst (run self op st) = Raise (InfobloxBadWAPICredential "") /\
      sent (snd (run self op st))
      = (sent st
         ++ [first_request self op;
             proxied_request self obj_type payload return_fields
               extattrs])%list).
Proof.
  intros Hvalid. split.
  - intros r Hr Hcode.
    rewrite (run_first_raises self op st (InfobloxBadWAPICredential ""));
      [now split | exact Hvalid|].
    rewrite Hr. cbn [reply_result]. now rewrite Hcode.
  - intros o p rf ea r1 v1 r2 -> Hcloud Hr1 Hcode1 Hv1 Ht Hr2 Hcode2.
    rewrite (run_second_reads self o p rf ea st r1 v1) by assumption.
    rewrite Hr2. cbn [reply_result fst snd after_request sent].
    rewrite Hcode2. cbn [Z.eqb Pos.eqb or_none].
    split; [reflexivity | now rewrite <- app_assoc].
Qed.

(** C7: on a valid target, whichever operation runs, when the appliance
    answers the operation's request with the operation's success status
    (200 for get, update and delete, 201 for create, 200 or 201 for
    call) and a content that is not JSON, the operation raises the
    connection error whose reason is that raw content, after that one
    request; and so does a get whose proxied second request is answered
    200 with such a content. *)
Theorem success_status_invalid_json (self : Connector) (op : operation)
    (st : session_state) :
  valid_target op ->
  (forall r,
      server (sent st) (first_request self op) = Responded r ->
      success_status op (status_code r) = true ->
      loads (content r) = None ->
      fst (run self op st)
      = Raise (InfobloxConnectionError (ReasonContent (content r))) /\
      sent (snd (run self op st))
      = (sent st ++ [first_request self op])%list) /\
  (forall obj_type payload return_fields extattrs r1 v1 r2,
      op = OpGet obj_type payload return_fields extattrs false ->
      cloud_api_enabled self = true ->
      server (sent st) (first_request self op) = Responded r1 ->
      status_code r1 = 200 ->
      loads (content r1) = Some v1 ->
      truthy v1 = false ->
      server (sent st ++ [first_request self op])%list
        (proxied_request self obj_type payload return_fields extattrs)
      = Responded r2 ->
      status_code r2 = 200 ->
      loads (content r2) = None ->
      fst (run self op st)
      = Raise (InfobloxConnectionError (ReasonContent (content r2))) /\
      sent (snd (run self op st))
      = (sent st
         ++ [first_request self op;
             proxied_request self obj_type payload return_fields
               extattrs])%list).
Proof.
  intros Hvalid.
  assert (Hread : forall r,
             success_status op (status_code r) = true ->
             loads (content r) = None ->
             reply_result op (Responded r)
             = Raise (InfobloxConnectionError (ReasonContent (content r)))).
  { intros r Hcode Hjson. cbn [reply_result]. rewrite Hcode.
    assert (H401 : (status_code r =? 401) = false).
    { destruct (status_code r =? 401) eqn:E; [|reflexivity].
      apply Z.eqb_eq in E. rewrite E in Hcode. now destruct op. }
    rewrite H401. unfold _parse_reply. now rewrite Hjson. }
  split.
  - intros r Hr Hcode Hjson.
    rewrite (run_first_raises self op st
               (InfobloxConnectionError (ReasonContent (content r))));
      [now split | exact Hvalid|].
    rewrite Hr. now apply Hread.
  - intros o p rf ea r1 v1 r2 Hop Hcloud Hr1 Hcode1 Hv1 Ht Hr2 Hcode2 Hjson.
    assert (Hs : success_status op (status_code r2) = true)
      by (subst op; cbn [success_status]; now rewrite Hcode2).
    specialize (Hread r2 Hs Hjson). subst op.
    rewrite (run_second_reads self o p rf ea st r1 v1) by assumption.
    rewrite Hr2, Hread. cbn [fst snd after_request sent or_none].
    split; [reflexivity | now rewrite <- app_assoc].
Qed.

(** C9: for get, call, update and delete on a valid target, when the
    appliance answers the operation's request with a status that is
    neither 401 nor the operation's success status, the operation raises
    its typed rejection with the decoded body when the content is JSON,
    and lets the decoder's error through when it is not, in both cases
    after that one request; the same holds of the proxied second
    request of a get.  Whenever one of these four operations raises its
    typed rejection, the parsed body it carries is the decoded raw
    content it carries.  A create, alone, reads the body safely: a
    content that is not JSON raises its rejection with no parsed
    body. *)
Theorem rejection_needs_json_body (self : Connector) (op : operation)
    (st : session_state) :
  ((forall obj_type payload return_fields,
       op <> OpCreate obj_type payload return_fields) ->
  (valid_target op ->
   forall r,
     server (sent st) (first_request self op) = Responded r ->
     status_code r <> 401 ->
     success_status op (status_code r) = false ->
     (forall body,
         loads (content r) = Some body ->
         fst (run self op st)
         = Raise (rejection op body (content r) (status_code r))) /\
     (loads (content r) = None ->
      fst (run self op st) = Raise (JSONDecodeError (content r))) /\
     sent (snd (run self op st))
     = (sent st ++ [first_request self op])%list) /\
  (valid_target op ->
   forall obj_type payload return_fields extattrs r1 v1 r2,
     op = OpGet obj_type payload return_fields extattrs false ->
     cloud_api_enabled self = true ->
     server (sent st) (first_request self op) = Responded r1 ->
     status_code r1 = 200 ->
     loads (content r1) = Some v1 ->
     truthy v1 = false ->
     server (sent st ++ [first_request self op])%list
       (proxied_request self obj_type payload return_fields extattrs)
     = Responded r2 ->
     status_code r2 <> 401 ->
     status_code r2 <> 200 ->
     (forall body,
         loads (content r2) = Some body ->
         fst (run self op st)
         = Raise (InfobloxSearchError body obj_type (content r2)
                    (status_code r2))) /\
     (loads (content r2) = None ->
      fst (run self op st) = Raise (JSONDecodeError (content r2)))) /\
  (forall body raw code,
      fst (run self op st) = Raise (rejection op body raw code) ->
      loads raw = Some body)) /\
  (forall obj_type payload return_fields r,
      valid_target (OpCreate obj_type payload return_fields) ->
      server (sent st)
        (first_request self (OpCreate obj_type payload return_fields))
      = Responded r ->
      status_code r <> 401 ->
      status_code r <> 201 ->
      loads (content r) = None ->
      fst (run self (OpCreate obj_type payload return_fields) st)
      = Raise (InfobloxCannotCreateObject PNone obj_type (content r)
                 payload (status_code r))).
Proof.
  split; [intros Hop|].
  2:{ intros obj payload rf r Hvalid Hr H401 H201 Hjson.
      rewrite (run_first_raises self (OpCreate obj payload rf) st
                 (InfobloxCannotCreateObject PNone obj (content r) payload
                    (status_code r)));
        [reflexivity | exact Hvalid|].
      rewrite Hr. cbn [reply_result success_status].
      apply Z.eqb_neq in H401, H201. rewrite H401, H201.
      rewrite create_rejection_empty_body;
        unfold safe_json_load; now rewrite Hjson. }
  assert (Hread : forall r,
             status_code r <> 401 ->
             success_status op (status_code r) = false ->
             reply_result op (Responded r)
             = match loads (content r) with
               | Some body =>
                   Raise (rejection op body (content r) (status_code r))
               | None => Raise (JSONDecodeError (content r))
               end).
  { intros r H401 Hcode. cbn [reply_result].
    apply Z.eqb_neq in H401. rewrite H401, Hcode.
    destruct op as [o p rf ea fp | obj payload rf | f ref payload rf
                   | ref payload rf | ref];
      [ | now destruct (Hop obj payload rf) | | | ]; reflexivity. }
  split; [|split].
  - intros Hvalid r Hr H401 Hcode.
    specialize (Hread r H401 Hcode).
    assert (Hrun : run self op st
                   = (reply_result op (Responded r),
                      after_request self st (first_request self op))).
    { destruct (loads (content r)) as [body|];
        rewrite Hread;
        apply run_first_raises; try exact Hvalid; now rewrite Hr, Hread. }
    rewrite Hrun, Hread. cbn [fst snd after_request sent].
    split; [|split].
    + now intros body ->.
    + now intros ->.
    + reflexivity.
  - intros Hvalid o p rf ea r1 v1 r2 Heq Hcloud Hr1 Hcode1 Hv1 Ht Hr2
      H401 H200.
    assert (Hs : success_status op (status_code r2) = false)
      by (subst op; cbn [success_status]; now apply Z.eqb_neq).
    specialize (Hread r2 H401 Hs). subst op.
    rewrite (run_second_reads self o p rf ea st r1 v1) by assumption.
    rewrite Hr2, Hread. cbn [fst rejection].
    split.
    + now intros body ->.
    + now intros ->.
  - intros body raw code Hres.
    destruct (run_result_source self op st _ _ (surjective_pairing _))
      as [[msg H] | [o H]].
    + rewrite H in Hres. destruct op; discriminate.
    + rewrite H in Hres.
      exact (reply_result_rejection op o body raw code Hop Hres).
Qed.

End Connector.

(** * Concrete runs *)

(** ** A failed create *)

(** C2, at a body without a [text] field: a create that is answered 400
    with the JSON object [{"Error": "no text here"}] raises neither of
    its two errors: the membership test on the absent text raises
    [TypeError]. *)
Theorem create_object_body_without_text :
  fst (create_object scenario_loads scenario_dumps scenario_urlencode
         scenario_quote scenario_urljoin
         (constant_server 400 error_body_without_text)
         cloud_connector "network"
         (PDict [("network", PStr "10.0.0.0/8")]) None fresh)
  = Raise TypeError.
Proof. vm_compute. reflexivity. Qed.

(** The same create, answered with a body whose text names the other
    network view, raises [InfobloxMemberAlreadyAssigned]; answered with a
    body that is not JSON, it raises [InfobloxCannotCreateObject] with no
    parsed body. *)
Lemma create_object_other_bodies :
  fst (create_object scenario_loads scenario_dumps scenario_urlencode
         scenario_quote scenario_urljoin
         (constant_server 400 error_body_assigned)
         cloud_connector "network"
         (PDict [("network", PStr "10.0.0.0/8")]) None fresh)
  = Raise (InfobloxMemberAlreadyAssigned
             (PDict [("text",
                      PStr "member is assigned to another network view")])
             "network" error_body_assigned
             (PDict [("network", PStr "10.0.0.0/8")]) 400) /\
  fst (create_object scenario_loads scenario_dumps scenario_urlencode
         scenario_quote scenario_urljoin
         (constant_server 502 "<html>Bad Gateway</html>")
         cloud_connector "network"
         (PDict [("network", PStr "10.0.0.0/8")]) None fresh)
  = Raise (InfobloxCannotCreateObject
             PNone "network" "<html>Bad Gateway</html>"
             (PDict [("network", PStr "10.0.0.0/8")]) 502).
Proof. split; vm_compute; reflexivity. Qed.

(** ** The proxy retry of get *)

(** A get of [network] on the cloud connector whose first reply is
    the empty list and whose second is [[1]]: the second request carries
    the proxy flag and its result is returned. *)
Lemma get_object_retry_witness :
  fst (get_object scenario_loads scenario_dumps scenario_urlencode
         scenario_quote scenario_urljoin
         (two_step_server {| status_code := 200; content := "[]" |}
                          {| status_code := 200; content := "[1]" |})
         cloud_connector "network" None None None false fresh)
  = Ok (PList [PInt 1]) /\
  sent (snd (get_object scenario_loads scenario_dumps scenario_urlencode
               scenario_quote scenario_urljoin
               (two_step_server {| status_code := 200; content := "[]" |}
                                {| status_code := 200; content := "[1]" |})
               cloud_connector "network" None None None false fresh))
  = [network_request; network_request_proxied].
Proof.
  destruct (get_object_retry_policy
              scenario_loads scenario_dumps scenario_urlencode
              scenario_quote scenario_urljoin
              (two_step_server {| status_code := 200; content := "[]" |}
                               {| status_code := 200; content := "[1]" |})
              cloud_connector "network" None None None false fresh _ _
              (surjective_pairing _)) as [_ H].
  destruct (H "https://nios.example.com/wapi/v2.5/network"
              {| status_code := 200; content := "[]" |}
              eq_refl eq_refl) as [_ H1].
  destruct (H1 (PList []) eq_refl eq_refl) as (_ & _ & H2).
  destruct (H2 eq_refl eq_refl eq_refl) as (url2 & Hu2 & _ & Hsent & Hres).
  vm_compute in Hu2. injection Hu2 as <-.
  split.
  - exact (Hres {| status_code := 200; content := "[1]" |} (PList [PInt 1])
             eq_refl eq_refl eq_refl).
  - exact Hsent.
Defined.

(** On the cloud connector, when both replies are the empty list, the
    get returns [None], not the empty list the second reply parsed to. *)
Lemma get_object_second_empty_is_none :
  ~ second_result_returned_as_is scenario_loads scenario_dumps
      scenario_urlencode scenario_quote scenario_urljoin
      (constant_server 200 "[]").
Proof.
  intros H.
  specialize (H cloud_connector "network" None None None fresh _ _
                "https://nios.example.com/wapi/v2.5/network"
                "https://nios.example.com/wapi/v2.5/network?_proxy_search=GM"
                {| status_code := 200; content := "[]" |}
                {| status_code := 200; content := "[]" |}
                (PList []) (PList [])
                eq_refl (surjective_pairing _) eq_refl eq_refl eq_refl
                eq_refl eq_refl eq_refl eq_refl eq_refl eq_refl).
  vm_compute in H. discriminate H.
Qed.

(** ** Construction *)

(** The scenario of the specification: host [nios.example.com], user
    [a], password [b], version 2.5 and the defaults give a cloud-capable
    connector on [https://nios.example.com/wapi/v2.5/]; a source without
    a username is refused by name; an empty host is refused as blank. *)
Lemma parse_options_witness :
  _parse_options scenario_repr cloud_options = Ok cloud_connector /\
  connector_attr cloud_connector "http_request_timeout" = Some (PInt 10) /\
  connector_attr cloud_connector "host" = Some (PStr "nios.example.com") /\
  wapi_url cloud_connector = "https://nios.example.com/wapi/v2.5/" /\
  _parse_options scenario_repr (OptionsDict [("host", PStr "h")])
  = Raise (InfobloxConfigException
             "WAPI config error. Option username is not defined") /\
  _parse_options scenario_repr
    (OptionsObject [("host", PStr ""); ("username", PStr "a");
                    ("password", PStr "b")])
  = Raise (InfobloxConfigException
             "WAPI config error. Option host can not be blank").
Proof.
  assert (Hok : _parse_options scenario_repr cloud_options = Ok cloud_connector)
    by reflexivity.
  destruct (parse_options_spec scenario_repr cloud_options)
    as (Hattr & _ & _ & Hurl & _).
  destruct (parse_options_spec scenario_repr (OptionsDict [("host", PStr "h")]))
    as (_ & Hundef & _).
  destruct (parse_options_spec scenario_repr
              (OptionsObject [("host", PStr ""); ("username", PStr "a");
                              ("password", PStr "b")]))
    as (_ & _ & Hblank & _).
  split; [exact Hok|].
  split; [apply (Hattr cloud_connector "http_request_timeout" Hok);
          simpl; tauto|].
  split; [apply (Hattr cloud_connector "host" Hok); simpl; tauto|].
  split; [exact (Hurl cloud_connector Hok)|].
  split; [exact (Hundef "username" eq_refl)|].
  exact (Hblank "host" eq_refl eq_refl).
Defined.

(** ** URLs *)

(** A filter on the extensible attribute [Site], the view as ordinary
    parameter and the proxy forced; and an absolute path. *)
Lemma construct_url_witness :
  snd (_construct_url scenario_urlencode scenario_quote scenario_urljoin
         cloud_connector "network" (Some [("view", PStr "default")])
         (Some [("Site", {| value := "HQ" |})]) true)
  = Ok ("https://nios.example.com/wapi/v2.5/network"
          ++ "?*Site=HQ&view=default&_proxy_search=GM") /\
  snd (_construct_url scenario_urlencode scenario_quote scenario_urljoin
         cloud_connector "/x" None None false)
  = Raise (ValueError "Path in request must be relative.").
Proof.
  split.
  - refine (proj1 (proj2 (construct_url_spec scenario_urlencode scenario_quote
                            scenario_urljoin cloud_connector "network"
                            (Some [("view", PStr "default")])
                            (Some [("Site", {| value := "HQ" |})]) true))
              _ _); [discriminate | intros rest; discriminate].
  - refine (proj1 (construct_url_spec scenario_urlencode scenario_quote
                     scenario_urljoin cloud_connector "/x" None None false) _).
    right. now exists "x".
Defined.

(** ** The validator and the version gate *)

Lemma validate_obj_type_or_die_witness :
  _validate_obj_type_or_die "network/ZG5z" true
  = Raise (ValueError "NIOS object type cannot contain slash.") /\
  _validate_obj_type_or_die "network/ZG5z" false = Ok tt.
Proof.
  destruct validate_obj_type_or_die_spec as (_ & Hslash & Hok & _).
  split.
  - apply Hslash. exists "network", "ZG5z". reflexivity.
  - apply Hok. discriminate.
Defined.

(** In [v10.3] the first pattern is [10.3], after the letter. *)
Lemma is_cloud_wapi_witness : is_cloud_wapi (PStr "v10.3") = Ok true.
Proof.
  refine (proj1 (proj2 is_cloud_wapi_spec) "v10.3" "v" "10" "3" "" _).
  split.
  - repeat split; try reflexivity; discriminate.
  - intros pre' major' minor' rest' (Heq & Hm & _ & Hd & _).
    destruct pre' as [|c pre']; [|simpl; lia].
    destruct major' as [|c major']; [congruence|].
    simpl in Heq. injection Heq as <- _. discriminate Hd.
Defined.

Lemma is_cloud_wapi_no_version_witness : is_cloud_wapi (PStr "abc") = Ok false.
Proof.
  apply is_cloud_wapi_no_version; [discriminate|].
  intros pre major minor rest Hv.
  apply re_search_version_complete in Hv. now apply Hv.
Defined.

(** ** Status dispatch *)

(** A get whose first reply is the empty list and whose proxied second
    request is answered 401; and a delete answered 401. *)
Lemma unauthorized_witness :
  (fst (run scenario_loads scenario_dumps scenario_urlencode scenario_quote
          scenario_urljoin
          (two_step_server {| status_code := 200; content := "[]" |}
                           {| status_code := 401; content := "" |})
          cloud_connector (OpGet "network" None None None false) fresh)
   = Raise (InfobloxBadWAPICredential "") /\
   sent (snd (run scenario_loads scenario_dumps scenario_urlencode
                scenario_quote scenario_urljoin
                (two_step_server {| status_code := 200; content := "[]" |}
                                 {| status_code := 401; content := "" |})
                cloud_connector (OpGet "network" None None None false) fresh))
   = [network_request; network_request_proxied]) /\
  (fst (run scenario_loads scenario_dumps scenario_urlencode scenario_quote
          scenario_urljoin (constant_server 401 "")
          cloud_connector (OpDelete "network/ZG5z") fresh)
   = Raise (InfobloxBadWAPICredential "") /\
   sent (snd (run scenario_loads scenario_dumps scenario_urlencode
                scenario_quote scenario_urljoin (constant_server 401 "")
                cloud_connector (OpDelete "network/ZG5z") fresh))
   = [{| method := DELETE;
         url := "https://nios.example.com/wapi/v2.5/network/ZG5z";
         opts := plain_opts |}]).
Proof.
  split.
  - refine (proj2 (unauthorized_raises_auth_error
                     scenario_loads scenario_dumps scenario_urlencode
                     scenario_quote scenario_urljoin
                     (two_step_server
                        {| status_code := 200; content := "[]" |}
                        {| status_code := 401; content := "" |})
                     cloud_connector (OpGet "network" None None None false)
                     fresh _)
              "network" None None None
              {| status_code := 200; content := "[]" |} (PList [])
              {| status_code := 401; content := "" |}
              eq_refl eq_refl eq_refl eq_refl eq_refl eq_refl eq_refl eq_refl).
    repeat split; [discriminate | intros rest; discriminate].
  - refine (proj1 (unauthorized_raises_auth_error
                     scenario_loads scenario_dumps scenario_urlencode
                     scenario_quote scenario_urljoin (constant_server 401 "")
                     cloud_connector (OpDelete "network/ZG5z") fresh _)
              {| status_code := 401; content := "" |} eq_refl eq_refl).
    repeat split; [discriminate | intros rest; discriminate].
Defined.

(** A create answered 201 with a page that is not JSON. *)
Lemma success_status_invalid_json_witness :
  fst (run scenario_loads scenario_dumps scenario_urlencode scenario_quote
         scenario_urljoin (constant_server 201 "<html>Created</html>")
         cloud_connector
         (OpCreate "network" (PDict [("network", PStr "10.0.0.0/8")]) None)
         fresh)
  = Raise (InfobloxConnectionError (ReasonContent "<html>Created</html>")) /\
  map url
    (sent (snd (run scenario_loads scenario_dumps scenario_urlencode
                  scenario_quote scenario_urljoin
                  (constant_server 201 "<html>Created</html>")
                  cloud_connector
                  (OpCreate "network"
                     (PDict [("network", PStr "10.0.0.0/8")]) None)
                  fresh)))
  = ["https://nios.example.com/wapi/v2.5/network"].
Proof.
  destruct (proj1 (success_status_invalid_json
                     scenario_loads scenario_dumps scenario_urlencode
                     scenario_quote scenario_urljoin
                     (constant_server 201 "<html>Created</html>")
                     cloud_connector
                     (OpCreate "network"
                        (PDict [("network", PStr "10.0.0.0/8")]) None)
                     fresh
                     ltac:(repeat split;
                           [ discriminate
                           | intros rest; discriminate
                           | intros [before [after H]];
                             pose proof (str_in_slash before after) as Hin;
                             rewrite <- H in Hin; discriminate Hin ]))
              {| status_code := 201; content := "<html>Created</html>" |}
              eq_refl eq_refl eq_refl) as [Hres Hsent].
  split; [exact Hres|]. rewrite Hsent. reflexivity.
Defined.

(** A delete answered 404 with an empty JSON object, and one answered
    500 with plain text. *)
Lemma rejection_needs_json_body_witness :
  fst (run scenario_loads scenario_dumps scenario_urlencode scenario_quote
         scenario_urljoin (constant_server 404 "{}")
         cloud_connector (OpDelete "network/ZG5z") fresh)
  = Raise (InfobloxCannotDeleteObject (PDict []) "network/ZG5z" "{}" 404) /\
  fst (run scenario_loads scenario_dumps scenario_urlencode scenario_quote
         scenario_urljoin (constant_server 500 "Internal Server Error")
         cloud_connector (OpDelete "network/ZG5z") fresh)
  = Raise (JSONDecodeError "Internal Server Error").
Proof.
  split.
  - destruct (proj1 (rejection_needs_json_body
                       scenario_loads scenario_dumps scenario_urlencode
                       scenario_quote scenario_urljoin
                       (constant_server 404 "{}")
                       cloud_connector (OpDelete "network/ZG5z") fresh)
                ltac:(discriminate)) as [H _].
    destruct (H ltac:(repeat split;
                      [discriminate | intros rest; discriminate])
                {| status_code := 404; content := "{}" |}
                eq_refl ltac:(discriminate) eq_refl) as [Hjson _].
    exact (Hjson (PDict []) eq_refl).
  - destruct (proj1 (rejection_needs_json_body
                       scenario_loads scenario_dumps scenario_urlencode
                       scenario_quote scenario_urljoin
                       (constant_server 500 "Internal Server Error")
                       cloud_connector (OpDelete "network/ZG5z") fresh)
                ltac:(discriminate)) as [H _].
    destruct (H ltac:(repeat split;
                      [discriminate | intros rest; discriminate])
                {| status_code := 500; content := "Internal Server Error" |}
                eq_refl ltac:(discriminate) eq_refl) as (_ & Hraw & _).
    exact (Hraw eq_refl).
Defined.

(** * Further concrete runs *)

(** An update whose request times out. *)
Lemma transport_failure_witness :
  fst (run scenario_loads scenario_dumps scenario_urlencode scenario_quote
         scenario_urljoin (timeout_server "read timed out")
         cloud_connector (OpUpdate network_ref comment_payload None) fresh)
  = Raise (InfobloxTimeoutError "read timed out").
Proof.
  apply (proj1 (transport_failure_is_remapped
                  scenario_loads scenario_dumps scenario_urlencode
                  scenario_quote scenario_urljoin
                  (timeout_server "read timed out")
                  cloud_connector (OpUpdate network_ref comment_payload None)
                  fresh _ _ update_network_request (surjective_pairing _))).
  exists []. repeat split. simpl. lia.
Defined.

(** A get on an absolute path. *)
Lemma invalid_target_witness :
  exists msg,
    run scenario_loads scenario_dumps scenario_urlencode scenario_quote
      scenario_urljoin (constant_server 200 "[1]")
      cloud_connector (OpGet "/network" None None None false) fresh
    = (Raise (ValueError msg), fresh).
Proof.
  apply invalid_target_sends_nothing. right. left. now exists "network".
Defined.

(** A delete of the network. *)
Lemma valid_target_witness :
  exists req more,
    sent (snd (run scenario_loads scenario_dumps scenario_urlencode
                 scenario_quote scenario_urljoin (constant_server 200 "[1]")
                 cloud_connector (OpDelete network_ref) fresh))
    = ([] ++ req :: more)%list /\
    method req = DELETE /\
    url req = "https://nios.example.com/wapi/v2.5/network/ZG5z" /\
    (List.length (req :: more) <= 1)%nat.
Proof.
  apply (valid_target_sends_first_request
           scenario_loads scenario_dumps scenario_urlencode scenario_quote
           scenario_urljoin (constant_server 200 "[1]")
           cloud_connector (OpDelete network_ref) fresh).
  repeat split; [discriminate | intros rest; discriminate].
Defined.

(** An update answered 200 with a JSON list. *)
Lemma success_returns_decoded_content_witness :
  fst (run scenario_loads scenario_dumps scenario_urlencode scenario_quote
         scenario_urljoin (constant_server 200 "[]")
         cloud_connector (OpUpdate network_ref comment_payload None) fresh)
  = Ok (PList []).
Proof.
  apply (success_returns_decoded_content
           scenario_loads scenario_dumps scenario_urlencode scenario_quote
           scenario_urljoin (constant_server 200 "[]")
           cloud_connector (OpUpdate network_ref comment_payload None)
           fresh _ _ update_network_request
           {| status_code := 200; content := "[]" |} (PList [])
           (surjective_pairing _)).
  - exists []. repeat split. simpl. lia.
  - reflexivity.
  - reflexivity.
Defined.

(** A get answered with a list of one element. *)
Lemma get_returns_none_or_non_empty_witness :
  PList [PInt 1] = PNone \/ truthy (PList [PInt 1]) = true.
Proof.
  apply (get_returns_none_or_non_empty
           scenario_loads scenario_dumps scenario_urlencode scenario_quote
           scenario_urljoin (constant_server 200 "[1]")
           cloud_connector "network" None None None false fresh
           (PList [PInt 1])).
  reflexivity.
Defined.

(** A get with [force_proxy] on the connector of version 1.4. *)
Lemma force_proxy_ignored_witness :
  get_object scenario_loads scenario_dumps scenario_urlencode scenario_quote
    scenario_urljoin (constant_server 200 "[]")
    standalone_connector "network" None None None true fresh
  = get_object scenario_loads scenario_dumps scenario_urlencode scenario_quote
      scenario_urljoin (constant_server 200 "[]")
      standalone_connector "network" None None None false fresh /\
  exists new,
    sent (snd (get_object scenario_loads scenario_dumps scenario_urlencode
                 scenario_quote scenario_urljoin (constant_server 200 "[]")
                 standalone_connector "network" None None None true fresh))
    = ([] ++ new)%list /\
    (List.length new <= 1)%nat.
Proof.
  apply (force_proxy_ignored_without_cloud
           scenario_loads scenario_dumps scenario_urlencode scenario_quote
           scenario_urljoin (constant_server 200 "[]")
           standalone_connector "network" None None None true fresh).
  reflexivity.
Defined.

(** A get with [force_proxy] on the cloud connector. *)
Lemma forced_proxy_witness :
  sent (snd (get_object scenario_loads scenario_dumps scenario_urlencode
               scenario_quote scenario_urljoin (constant_server 200 "[]")
               cloud_connector "network" None None None true fresh))
  = [network_request_proxied].
Proof.
  refine (proj1 (forced_proxy_sends_one_request
                   scenario_loads scenario_dumps scenario_urlencode
                   scenario_quote scenario_urljoin (constant_server 200 "[]")
                   cloud_connector "network" None None None fresh
                   eq_refl _ _));
    [discriminate | intros rest; discriminate].
Defined.

Lemma delete_request_witness :
  sent (snd (delete_object scenario_loads scenario_dumps scenario_urlencode
               scenario_quote scenario_urljoin (constant_server 200 "[1]")
               cloud_connector network_ref fresh))
  = [delete_network_request].
Proof.
  refine (delete_request
            scenario_loads scenario_dumps scenario_urlencode scenario_quote
            scenario_urljoin (constant_server 200 "[1]")
            cloud_connector network_ref fresh _ _);
    [discriminate | intros rest; discriminate].
Defined.

(** A call of [next_available_ip] on the network. *)
Lemma call_func_request_witness :
  map url
    (sent (snd (call_func scenario_loads scenario_dumps scenario_urlencode
                  scenario_quote scenario_urljoin (constant_server 200 "[1]")
                  cloud_connector "next_available_ip" network_ref
                  (PDict []) None fresh)))
  = ["https://nios.example.com/wapi/v2.5/network/ZG5z"
       ++ "?_function=next_available_ip"].
Proof.
  rewrite (proj1 (call_func_request
                    scenario_loads scenario_dumps scenario_urlencode
                    scenario_quote scenario_urljoin (constant_server 200 "[1]")
                    cloud_connector "next_available_ip" network_ref
                    (PDict []) None fresh
                    ltac:(discriminate) ltac:(intros rest; discriminate))).
  reflexivity.
Defined.

Lemma build_query_params_witness :
  dict_get "view"
    (_build_query_params (Some [("view", PStr "default")])
       (Some ["network"; "comment"]))
  = Some (PStr "default") /\
  dict_get "_return_fields"
    (_build_query_params (Some [("view", PStr "default")])
       (Some ["network"; "comment"]))
  = Some (PStr "network,comment").
Proof.
  destruct (build_query_params_lookup (Some [("view", PStr "default")])
              (Some ["network"; "comment"])) as (Hkeep & Hfields & _).
  split.
  - apply (Hkeep "view"). discriminate.
  - apply (Hfields "network" ["comment"]). reflexivity.
Defined.

(** A create answered 400 with the text of the other network view. *)
Lemma create_failure_witness :
  fst (create_object scenario_loads scenario_dumps scenario_urlencode
         scenario_quote scenario_urljoin
         (constant_server 400 error_body_assigned)
         cloud_connector "network" (PDict []) None fresh)
  = Raise (InfobloxMemberAlreadyAssigned
             (PDict [("text",
                      PStr "member is assigned to another network view")])
             "network" error_body_assigned (PDict []) 400).
Proof.
  destruct (create_failure_by_body
              scenario_loads scenario_dumps scenario_urlencode scenario_quote
              scenario_urljoin (constant_server 400 error_body_assigned)
              cloud_connector "network" (PDict []) None fresh _ _
              {| method := POST;
                 url := "https://nios.example.com/wapi/v2.5/network";
                 opts := plain_opts |}
              {| status_code := 400; content := error_body_assigned |}
              (surjective_pairing _)) as (_ & _ & H).
  - exists []. repeat split. simpl. lia.
  - discriminate.
  - discriminate.
  - exact (H ("text", PStr "member is assigned to another network view") []
             "member is assigned to another network view" eq_refl eq_refl).
Defined.

(** A get answered twice with the empty list sent two requests. *)
Lemma retry_only_after_empty_success_witness :
  cloud_api_enabled cloud_connector = true /\ false = false /\
  exists r1 v1,
    constant_server 200 "[]" (sent fresh) network_request = Responded r1 /\
    status_code r1 = 200 /\
    scenario_loads (content r1) = Some v1 /\
    truthy v1 = false.
Proof.
  apply (retry_only_after_empty_success
           scenario_loads scenario_dumps scenario_urlencode scenario_quote
           scenario_urljoin (constant_server 200 "[]")
           cloud_connector "network" None None None false fresh
           network_request network_request_proxied).
  reflexivity.
Defined.

(** The number 2 as version. *)
Lemma parse_options_invalid_version_witness :
  _parse_options scenario_repr numeric_version_options
  = Raise (ValueError "Invalid argument was passed").
Proof.
  apply (parse_options_invalid_version scenario_repr numeric_version_options
           (PInt 2)); try reflexivity.
  left. reflexivity.
Defined.

Lemma parse_options_total_witness :
  exists self, _parse_options scenario_repr cloud_options = Ok self.
Proof.
  apply (parse_options_total scenario_repr cloud_options "2.5");
    try reflexivity.
  discriminate.
Defined.

Lemma init_binds_session_witness :
  resolved cloud_options "username" = Some (PStr "a") /\
  resolved cloud_options "password" = Some (PStr "b") /\
  resolved cloud_options "ssl_verify" = Some (PBool false) /\
  resolved cloud_options "http_pool_connections" = Some (PInt 10) /\
  resolved cloud_options "http_pool_maxsize" = Some (PInt 10) /\
  mounted (_configure_session cloud_connector) = ["http://"; "https://"] /\
  (exists v, resolved cloud_options "silent_ssl_warnings" = Some v /\
             warnings_disabled (_configure_session cloud_connector)
             = truthy v) /\
  (exists v, resolved cloud_options "wapi_version" = Some v /\
             is_cloud_wapi v = Ok true).
Proof.
  apply (init_binds_session scenario_repr cloud_options cloud_connector
           (_configure_session cloud_connector)).
  reflexivity.
Defined.

Lemma validate_obj_type_or_die_iff_witness :
  _validate_obj_type_or_die "network" true = Ok tt.
Proof.
  apply (proj2 (proj2 (validate_obj_type_or_die_iff "network"))).
  split; [discriminate|].
  intros [before [after H]].
  pose proof (str_in_slash before after) as Hin.
  rewrite <- H in Hin. discriminate Hin.
Defined.

Lemma is_cloud_wapi_raises_iff_witness :
  exists e, is_cloud_wapi PNone = Raise e.
Proof.
  apply (proj2 (is_cloud_wapi_raises_iff PNone)). left. reflexivity.
Defined.
